(** * Customer feedback analysis: the analytics core of [app.py]

    A shallow embedding of the pure functions of [src/app.py]
    ([extract_products_from_reviews], [generate_recommendations],
    [generate_simple_recommendations] and the labelling and counting part of
    [generate_charts]) together with the properties of the specification
    that concern them.

    Conventions of the embedding:
    - a Python [str] is a [string] (its UTF-8 bytes); a value that may be
      [None] is an [option];
    - a Python [float] is a binary64 [float] of the kernel, so that the
      literals [0.05] and [-0.05] and the comparisons are the ones Python
      evaluates;
    - what the program calls but does not define is a parameter of the
      section that uses it: [str.lower], the VADER scorer, the two mining
      functions of mlxtend, [round] and the draws of [random.choice]. *)

From Stdlib Require Import String Ascii List Bool Arith ZArith QArith Qround Lia Floats.

Set Warnings "-inexact-float".
From stdpp Require Import base option list sorting gmap strings.

Open Scope string_scope.
Open Scope list_scope.

(** ** Python's text primitives *)

(** [review or ""]: [None] and the empty string both give the empty string. *)
Definition or_empty (review : option string) : string :=
  match review with
  | Some s => s
  | None => ""
  end.

(** [p in text] on strings: [p] occurs in [text] as a contiguous substring. *)
Fixpoint str_in (p text : string) : bool :=
  String.prefix p text ||
  match text with
  | EmptyString => false
  | String _ rest => str_in p rest
  end.

(** [p] occurs in [text]: some text before it, some text after it. *)
Definition occurs_in (p text : string) : Prop :=
  exists pre suf : string, text = (pre ++ p ++ suf)%string.

(** [str.lower] restricted to ASCII letters, used to run the examples; on
    ASCII text it is what Python computes. *)
Definition ascii_lower_char (c : ascii) : ascii :=
  let n := nat_of_ascii c in
  if (65 <=? n)%nat && (n <=? 90)%nat then ascii_of_nat (n + 32) else c.

Fixpoint ascii_lower (s : string) : string :=
  match s with
  | EmptyString => EmptyString
  | String c rest => String (ascii_lower_char c) (ascii_lower rest)
  end.

(** [sorted(list(set(xs)))] on strings: the set forgets order and repetition,
    [sorted] orders by code point, which on UTF-8 bytes is the bytewise
    lexicographic order [String.le]. *)
Definition sorted_set (xs : list string) : list string :=
  merge_sort String.le (elements (list_to_set xs : gset string)).

(** ** Item extractor and transaction builder *)

Definition product_list : list string :=
  [ "delivery"; "packaging"; "taste"; "quality"; "price"; "refund";
    "app"; "support"; "burger"; "pizza"; "fries"; "sauce"; "combo";
    "subscription"; "drink"; "beverage" ].

Section Extractor.
Variable lower : string -> string.

(** [[p for p in product_list if p in text]] for
    [text = (review or "").lower()]. *)
Definition products_found (review : option string) : list string :=
  let text := lower (or_empty review) in
  List.filter (fun p => str_in p text) product_list.

(** One iteration of the loop of [extract_products_from_reviews]. *)
Definition extract_step (transactions : list (list string))
    (review : option string) : list (list string) :=
  match products_found review with
  | [] => transactions
  | found => transactions ++ [sorted_set found]
  end.

Definition extract_products_from_reviews
    (reviews : list (option string)) : list (list string) :=
  fold_left extract_step reviews [].

(** The test [if products_found], and the list appended when it holds. *)
Definition mentions_tag (review : option string) : bool :=
  match products_found review with
  | [] => false
  | _ => true
  end.

Definition transaction_of (review : option string) : list string :=
  sorted_set (products_found review).

(** The positions, counted from [i], of the reviews that give a
    transaction: the review each transaction is derived from. *)
Fixpoint origins_from (i : nat) (reviews : list (option string))
    : list nat :=
  match reviews with
  | [] => []
  | review :: rest =>
      if mentions_tag review then i :: origins_from (S i) rest
      else origins_from (S i) rest
  end.
End Extractor.


(** ** Keyword-based recommendations *)

Definition positive_keywords : list string :=
  [ "good"; "like"; "love"; "wonderful"; "super"; "amazing";
    "marvellous"; "surprised"; "great"; "excellent"; "fantastic";
    "awesome"; "perfect" ].

Definition negative_keywords : list string :=
  [ "hate"; "bad"; "poor"; "disgusting"; "waste"; "not happy";
    "don't like"; "disappointed"; "awful"; "not satisfied"; "horrible";
    "terrible"; "worst" ].

Definition neutral_keywords : list string :=
  [ "okay"; "average"; "fine"; "moderate"; "fair"; "sufficient";
    "normal"; "acceptable"; "regular"; "standard"; "routine";
    "usual"; "ordinary"; "typical"; "not sure"; "perhaps"; "maybe";
    "decent"; "not bad"; "satisfactory" ].

Definition positive_recommendations : list string :=
  [ "It's great to see your positive experience! We recommend trying our new flavors as well; they're fantastic!";
    "Since you enjoyed this product, you might also like our complementary items that enhance the experience!";
    "We're glad you loved this! You should check out our loyalty deals for even better value!";
    "Glad to hear you're satisfied! Don't miss our upcoming promotions that might interest you.";
    "Based on your positive review, you might enjoy our subscription service for regular deliveries!" ].

Definition negative_recommendations : list string :=
  [ "We appreciate your feedback! Please reach out to our customer service for immediate assistance.";
    "Thanks for sharing your experience. Our troubleshooting guide might offer a quick solution.";
    "Sorry to hear that! Check our FAQs for tips that can help resolve it quickly.";
    "Thanks for your honesty! Stay tuned — we’re actively improving this area.";
    "We value your input. Our customer care can offer personalized support.";
    "We’re sorry about the experience. Please try our latest update — we’re continually improving." ].

Definition neutral_recommendations : list string :=
  [ "Thanks for your balanced feedback! We’re working on making things even better.";
    "We appreciate your input. Do check back soon — improvements are always ongoing.";
    "Your thoughts are valuable. Stay tuned for upcoming updates that may enhance your experience.";
    "Thanks for the fair review! We'd love to hear more details to help us improve.";
    "We’re glad things were okay! We aim to make them great next time." ].

Definition fallback_recommendation : string :=
  "Thank you for your feedback! We're always looking to improve.".

(** [any(keyword in content for keyword in keywords)] *)
Definition any_in (keywords : list string) (content : string) : bool :=
  existsb (fun keyword => str_in keyword content) keywords.

Section KeywordComposer.
Variable lower : string -> string.

(** The generator of the [random] module: [randbelow n g] is the index
    that a call of [random.choice] on a sequence of length [n] draws in
    generator state [g], with the state the call leaves. *)
Variable rng : Type.
Variable randbelow : nat -> rng -> nat * rng.

(** [random.choice(pool)] is [pool[randbelow(len(pool))]]. *)
Definition choice (pool : list string) (g : rng) : string * rng :=
  let (i, g') := randbelow (length pool) g in
  (nth i pool "", g').

(** The body of the loop: the recommendation for one review. *)
Definition recommend (review : option string) (g : rng) : string * rng :=
  let content := lower (or_empty review) in
  if any_in positive_keywords content then
    choice positive_recommendations g
  else if any_in negative_keywords content then
    choice negative_recommendations g
  else if any_in neutral_keywords content then
    choice neutral_recommendations g
  else
    (fallback_recommendation, g).

Fixpoint simple_loop (reviews : list (option string))
    (selected_recommendations : list string) (g : rng)
    : list string * rng :=
  match reviews with
  | [] => (selected_recommendations, g)
  | review :: rest =>
      let (recommendation, g') := recommend review g in
      simple_loop rest (selected_recommendations ++ [recommendation]) g'
  end.

Definition generate_simple_recommendations
    (reviews : list (option string)) (g : rng) : list string * rng :=
  simple_loop reviews [] g.
End KeywordComposer.

(** A generator to run examples with: the state is a counter, the draw is
    the counter reduced below the bound. *)
Definition counter_randbelow (n : nat) (g : nat) : nat * nat :=
  (g mod n, S g).

(** ** Sentiment labels and their counts *)

(** The [Review] rows of the store ([created_at] as seconds). *)
Record Review := {
  id : Z;
  content : string;
  sentiment_score : option float;
  created_at : Z
}.

(** The local function [label] of [generate_charts]. *)
Definition label (score : option float) : string :=
  match score with
  | None => "Neutral"
  | Some s =>
      if (0.05 <? s)%float then "Positive"
      else if (s <? -0.05)%float then "Negative"
      else "Neutral"
  end.

(** [pd.Series(labels).value_counts()]: each distinct label with the number
    of times it occurs. *)
Definition value_counts (labels : list string) : gmap string nat :=
  fold_left (fun counts l => <[l := S (default 0 (counts !! l))]> counts)
            labels ∅.

(** [.reindex(index)]: one entry per label of [index], in that order, absent
    (NaN) where the series has none. *)
Definition reindex (index : list string) (counts : gmap string nat)
    : list (string * option nat) :=
  map (fun l => (l, counts !! l)) index.

(** [.fillna(v)] *)
Definition fillna (v : nat) (series : list (string * option nat))
    : list (string * nat) :=
  map (fun entry => (fst entry, default v (snd entry))) series.

(** The series [counts] that [generate_charts] plots, for the rows the store
    returned ([generate_charts] computes it when there is at least one). *)
Definition sentiment_counts (reviews : list Review) : list (string * nat) :=
  let labels := map (fun r => label (sentiment_score r)) reviews in
  fillna 0 (reindex ["Positive"; "Neutral"; "Negative"] (value_counts labels)).

(** ** Rule-based recommendations *)

(** A row of the frame that [analyze_sentiments] returns: the four scores of
    VADER's [polarity_scores]. *)
Record polarity := {
  neg : float;
  neu : float;
  pos : float;
  compound : float
}.

(** A row of the frame of frequent itemsets, and a row of the frame of
    association rules; [metric] is the type of their numeric columns. *)
Record itemset_row (metric : Type) := {
  itemset_support : metric;
  itemsets : list string
}.

Record rule (metric : Type) := {
  antecedents : list string;
  consequents : list string;
  support : metric;
  confidence : metric;
  lift : metric
}.

(** A row of sentiments with the given compound score, to run examples
    with. *)
Definition scored (c : float) : polarity :=
  {| neg := 0; neu := 0; pos := 0; compound := c |}.

(** An element of the list that [generate_recommendations] returns, one
    field per key of the dictionary. *)
Record recommendation (metric : Type) := {
  rec_rule : string;
  rec_recommended_products : string;
  rec_support : metric;
  rec_confidence : metric;
  rec_lift : metric;
  rec_sentiment : string
}.

Arguments itemset_support {metric} _.
Arguments itemsets {metric} _.
Arguments antecedents {metric} _.
Arguments consequents {metric} _.
Arguments support {metric} _.
Arguments confidence {metric} _.
Arguments lift {metric} _.
Arguments rec_rule {metric} _.
Arguments rec_recommended_products {metric} _.
Arguments rec_support {metric} _.
Arguments rec_confidence {metric} _.
Arguments rec_lift {metric} _.
Arguments rec_sentiment {metric} _.

(** [', '.join(items)] *)
Definition join_comma (items : list string) : string :=
  String.concat ", " items.

(** [product in row] for a list [row]. *)
Definition in_row (product : string) (row : list string) : bool :=
  existsb (String.eqb product) row.

(** [all(product in row for product in antecedents)] *)
Definition all_in_row (products row : list string) : bool :=
  forallb (fun product => in_row product row) products.

(** [frame.iloc[i]]: the row at position [i], counted from the end when [i]
    is negative; no row ([IndexError]) when [i] is out of bounds. *)
Definition iloc {A : Type} (frame : list A) (i : Z) : option A :=
  let n := Z.of_nat (length frame) in
  if (0 <=? i)%Z && (i <? n)%Z then frame !! Z.to_nat i
  else if (- n <=? i)%Z && (i <? 0)%Z then frame !! Z.to_nat (n + i)
  else None.

(** [sentiments.iloc[min(idx, len(sentiments) - 1)]] *)
Definition sentiment_at (sentiments : list polarity) (idx : Z)
    : option polarity :=
  iloc sentiments (Z.min idx (Z.of_nat (length sentiments) - 1)).

Section Composer.
Variable metric : Type.

(** [apriori(basket, min_support=0.1, use_colnames=True)], as a function
    of the transactions the basket is the one-hot encoding of, and
    [association_rules(frequent_itemsets, metric="lift", min_threshold=1)],
    both of mlxtend; [round3 x] is [round(float(x), 3)]. *)
Variable apriori : list (list string) -> list (itemset_row metric).
Variable association_rules :
  list (itemset_row metric) -> list (rule metric).
Variable round3 : metric -> metric.

(** The dictionary appended for a matching rule, in either branch. *)
Definition recommend_rule (positive_review : bool) (r : rule metric)
    : recommendation metric :=
  let antecedents := antecedents r in
  let consequents := consequents r in
  if positive_review then
    {| rec_rule :=
         (join_comma antecedents ++ " -> " ++ join_comma consequents)%string;
       rec_recommended_products := join_comma consequents;
       rec_support := round3 (support r);
       rec_confidence := round3 (confidence r);
       rec_lift := round3 (lift r);
       rec_sentiment := "Positive" |}
  else
    {| rec_rule :=
         (join_comma antecedents ++ " -> " ++ join_comma consequents)%string;
       rec_recommended_products :=
         ("Consider improving " ++ join_comma consequents)%string;
       rec_support := round3 (support r);
       rec_confidence := round3 (confidence r);
       rec_lift := round3 (lift r);
       rec_sentiment := "Negative" |}.

(** The inner loop, [for _, rule in rules.iterrows()]. *)
Fixpoint rules_loop (positive_review : bool) (row : list string)
    (rules : list (rule metric))
    (recommendations : list (recommendation metric))
    : list (recommendation metric) :=
  match rules with
  | [] => recommendations
  | r :: rest =>
      if all_in_row (antecedents r) row then
        rules_loop positive_review row rest
          (recommendations ++ [recommend_rule positive_review r])
      else
        rules_loop positive_review row rest recommendations
  end.

(** The outer loop, [for idx, row in enumerate(transactions)], from
    position [idx] on; [None] is the [IndexError] of [iloc]. *)
Fixpoint transactions_loop (rules : list (rule metric))
    (sentiments : list polarity) (idx : Z) (rows : list (list string))
    (recommendations : list (recommendation metric))
    : option (list (recommendation metric)) :=
  match rows with
  | [] => Some recommendations
  | row :: rest =>
      if (length row =? 0)%nat then
        transactions_loop rules sentiments (idx + 1) rest recommendations
      else
        match sentiment_at sentiments idx with
        | None => None
        | Some sentiment =>
            let positive_review := (0.05 <? compound sentiment)%float in
            transactions_loop rules sentiments (idx + 1) rest
              (rules_loop positive_review row rules recommendations)
        end
  end.

Definition generate_recommendations (transactions : list (list string))
    (sentiments : list polarity)
    : option (list (recommendation metric)) :=
  match transactions with
  | [] => Some []
  | _ =>
      let frequent_itemsets := apriori transactions in
      match frequent_itemsets with
      | [] => Some []
      | _ =>
          let rules := association_rules frequent_itemsets in
          transactions_loop rules sentiments 0 transactions []
      end
  end.
End Composer.

Arguments recommend_rule {metric} _ _ _.
Arguments rules_loop {metric} _ _ _ _ _.
Arguments transactions_loop {metric} _ _ _ _ _ _.
Arguments generate_recommendations {metric} _ _ _ _ _.

(** The two lists the route [get_recommendations] builds from the stored
    texts and hands to [generate_recommendations]; [polarity_scores] is
    VADER's scorer. *)
Definition analyze_sentiments (polarity_scores : string -> polarity)
    (reviews : list string) : list polarity :=
  map polarity_scores reviews.

Definition product_recommendations {metric : Type}
    (lower : string -> string) (polarity_scores : string -> polarity)
    (apriori : list (list string) -> list (itemset_row metric))
    (association_rules : list (itemset_row metric) -> list (rule metric))
    (round3 : metric -> metric) (reviews : list string)
    : option (list (recommendation metric)) :=
  let sentiments := analyze_sentiments polarity_scores reviews in
  let transactions := extract_products_from_reviews lower (map Some reviews) in
  generate_recommendations apriori association_rules round3
    transactions sentiments.

(** ** The miner, from its contract *)

Module Miner.

(** Modelled from the spec: the candidate itemsets of the frequent-itemset
    miner (mlxtend's [apriori] is not part of the sources). The
    sub-lists of a list of tags, each in the order of the list. *)
Fixpoint subsets (tags : list string) : list (list string) :=
  match tags with
  | [] => [[]]
  | t :: rest => map (cons t) (subsets rest) ++ subsets rest
  end.

(** Modelled from the spec: the tags that occur in the transactions of
    the miner, absent from the sources, in increasing order. *)
Definition universe (transactions : list (list string)) : list string :=
  sorted_set (concat transactions).

(** Modelled from the spec: the support of the miner, absent from the
    sources, "fraction of transactions containing the itemset as a
    subset". *)
Definition support_of (transactions : list (list string))
    (tags : list string) : Q :=
  Qred (Z.of_nat (length (List.filter (all_in_row tags) transactions))
        # Pos.of_nat (length transactions)).

(** Modelled from the spec: the frequent-itemset miner, absent from the
    sources, "itemsets whose support ≥ threshold"; an itemset has at
    least one tag. *)
Definition apriori (min_support : Q) (transactions : list (list string))
    : list (itemset_row Q) :=
  flat_map
    (fun tags =>
       match tags with
       | [] => []
       | _ =>
           let s := support_of transactions tags in
           if Qle_bool min_support s
           then [ {| itemset_support := s; itemsets := tags |} ]
           else []
       end)
    (subsets (universe transactions)).

(** Modelled from the spec: the support the rule miner, absent from the
    sources, reads for an itemset in the frame of frequent itemsets. *)
Definition lookup_support (frequent : list (itemset_row Q))
    (tags : list string) : option Q :=
  itemset_support <$>
    List.find (fun row => bool_decide (itemsets row = tags)) frequent.

(** Modelled from the spec: the rules of the rule miner, absent from the
    sources, for one frequent itemset: every split into a non-empty
    antecedent and a non-empty consequent, with "support(A→B) =
    support(A∪B); confidence(A→B) = support(A∪B)/support(A);
    lift(A→B) = confidence(A→B)/support(B)", kept when the lift
    reaches the threshold. *)
Definition rules_of (min_lift : Q) (frequent : list (itemset_row Q))
    (row : itemset_row Q) : list (rule Q) :=
  flat_map
    (fun a =>
       let c := List.filter (fun t => negb (in_row t a)) (itemsets row) in
       match a, c, lookup_support frequent a, lookup_support frequent c with
       | _ :: _, _ :: _, Some support_a, Some support_c =>
           let conf := Qred (itemset_support row / support_a)%Q in
           let lft := Qred (conf / support_c)%Q in
           if Qle_bool min_lift lft
           then [ {| antecedents := a; consequents := c;
                     support := itemset_support row;
                     confidence := conf; lift := lft |} ]
           else []
       | _, _, _, _ => []
       end)
    (subsets (itemsets row)).

(** Modelled from the spec: the rule miner, absent from the sources,
    "the set of association rules derivable from those itemsets". *)
Definition association_rules (min_lift : Q)
    (frequent : list (itemset_row Q)) : list (rule Q) :=
  flat_map (rules_of min_lift frequent) frequent.

(** Modelled from the spec: "rounded to 3 decimal places", on exact
    fractions, a tie going to the even neighbour as Python's [round]
    (absent from the sources) resolves it. *)
Definition round3 (x : Q) : Q :=
  let y := Qred (x * 1000)%Q in
  let f := Qfloor y in
  let up :=
    match Qcompare (y - inject_Z f)%Q (1 # 2) with
    | Lt => false
    | Gt => true
    | Eq => Z.odd f
    end in
  Qred ((if up then f + 1 else f)%Z # 1000).

End Miner.

(** ** The routes, as transitions of the store *)

(** What a route returns: a rendered template with the values handed to
    it, or a redirection to an endpoint. *)
Inductive response (metric : Type) :=
| render_index (sentiment : option float)
| render_recommendations (product : list (recommendation metric))
    (simple : list string)
| render_charts (bar_file : string) (pie_file : option string)
| redirect (endpoint : string).

Arguments render_index {metric} _.
Arguments render_recommendations {metric} _ _.
Arguments render_charts {metric} _ _.
Arguments redirect {metric} _.

(** A reply: the message passed to [flash] with its category, if any, and
    the response. *)
Record reply (metric : Type) := {
  flashed : option (string * string);
  body : response metric
}.

Arguments flashed {metric} _.
Arguments body {metric} _.

(** The exceptions the routes can end in, and the outcome of a route: the
    value it returns or the exception it raises. *)
Inductive exn := IndexError | RuntimeError.

Inductive result (A : Type) :=
| Returned (a : A)
| Raised (e : exn).

Arguments Returned {A} _.
Arguments Raised {A} _.

(** The secret key of the application: line 18 reads
    [app.config['SECRET_KEY']] and assigns nothing, so the key keeps the
    default of Flask, [None]. *)
Definition app_secret_key : option string := None.

(** [flash(message, category)] under a given secret key: the message goes
    into the session, and the session cannot be written ([RuntimeError])
    when the key is absent or empty. *)
Definition flash (secret_key : option string) (message category : string)
    : result (string * string) :=
  match secret_key with
  | Some (String _ _) => Returned (message, category)
  | _ => Raised RuntimeError
  end.

(** A call of [flash] followed by the [return] of a response. *)
Definition flash_then {metric : Type} (secret_key : option string)
    (message category : string) (resp : response metric)
    : result (reply metric) :=
  match flash secret_key message category with
  | Returned f => Returned {| flashed := Some f; body := resp |}
  | Raised e => Raised e
  end.

(** The texts of [seed_demo]. *)
Definition demo_texts : list string :=
  [ "Loved the burger and fries! Great taste and fast delivery.";
    "The delivery was late and packaging was bad. Not happy.";
    "Quality is amazing. The price is fair. Support team was helpful.";
    "I hate the new app design, it's confusing.";
    "Pizza was okay, sauce was great, combo is value for money.";
    "Refund process was smooth. Appreciate the quick response." ].

(** The requests the routes answer: a GET or POST of [/give_review] with
    the form field [review] (absent or a text), [/seed_demo],
    [/get_recommendations] and [/charts]. *)
Inductive request :=
| GiveReview (post : bool) (form_review : option string)
| SeedDemo
| GetRecommendations
| Charts.

Section Routes.
Variable metric : Type.
Variable lower : string -> string.

(** [str.strip], VADER's scorer and the mining functions, as before; the
    store is the list of its rows in insertion order, and the two columns
    the database fills in are functions of the rows already stored:
    [next_id] the primary key, [utcnow] the reading of the clock. *)
Variable strip : string -> string.
Variable polarity_scores : string -> polarity.
Variable apriori : list (list string) -> list (itemset_row metric).
Variable association_rules : list (itemset_row metric) -> list (rule metric).
Variable round3 : metric -> metric.
Variable rng : Type.
Variable randbelow : nat -> rng -> nat * rng.
Variable next_id : list Review -> Z.
Variable utcnow : list Review -> Z.

(** [db.session.add(Review(content=..., sentiment_score=...))] followed by
    the commit. *)
Definition db_add (db : list Review) (text : string) (score : float)
    : list Review :=
  db ++ [ {| id := next_id db; content := text;
             sentiment_score := Some score; created_at := utcnow db |} ].

(** The row is committed before [flash] is called: the store of the
    result is the store after the commit, whether or not the route then
    raises. *)
Definition give_review (db : list Review) (post : bool)
    (form_review : option string) : list Review * result (reply metric) :=
  if post then
    let review := strip (or_empty form_review) in
    match review with
    | String _ _ =>
        let sentiment := compound (polarity_scores review) in
        (db_add db review sentiment,
         flash_then app_secret_key "Thank you for your feedback!" "success"
           (render_index (Some sentiment)))
    | EmptyString =>
        (db,
         flash_then app_secret_key
           "Please write a review before submitting." "warning"
           (redirect "give_review"))
    end
  else
    (db, Returned {| flashed := None; body := render_index None |}).

Definition seed_demo (db : list Review)
    : list Review * result (reply metric) :=
  (fold_left
     (fun db t => db_add db t (compound (polarity_scores t)))
     demo_texts db,
   flash_then app_secret_key "Seeded demo reviews." "success"
     (redirect "view_stored_reviews")).

Definition get_recommendations (db : list Review) (g : rng)
    : result (reply metric * rng) :=
  let reviews := map content db in
  match reviews with
  | [] =>
      match flash_then app_secret_key
              "Please submit at least one review to get recommendations."
              "warning" (redirect "give_review") with
      | Returned rep => Returned (rep, g)
      | Raised e => Raised e
      end
  | _ =>
      match product_recommendations lower polarity_scores apriori
              association_rules round3 reviews with
      | None => Raised IndexError
      | Some product =>
          let (simple, g') :=
            generate_simple_recommendations lower rng randbelow
              (map Some reviews) g in
          Returned ({| flashed := None;
                       body := render_recommendations product simple |}, g')
      end
  end.

(** [generate_charts]: the series saved under each file name, and the pair
    of names returned. *)
Definition generate_charts (db : list Review)
    : list (string * list (string * nat)) * (option string * option string) :=
  match db with
  | [] => ([], (None, None))
  | _ =>
      let counts := sentiment_counts db in
      ([("sentiment_bar.png", counts); ("sentiment_pie.png", counts)],
       (Some "sentiment_bar.png", Some "sentiment_pie.png"))
  end.

Definition charts (db : list Review) : result (reply metric) :=
  match snd (generate_charts db) with
  | (None, _) =>
      flash_then app_secret_key
        "No data yet. Submit some reviews to see charts!" "info"
        (redirect "give_review")
  | (Some bar_file, pie_file) =>
      Returned {| flashed := None; body := render_charts bar_file pie_file |}
  end.

(** The store after a request, and after a sequence of requests. *)
Definition step (db : list Review) (r : request) : list Review :=
  match r with
  | GiveReview post form_review => fst (give_review db post form_review)
  | SeedDemo => fst (seed_demo db)
  | GetRecommendations => db
  | Charts => db
  end.

Definition run (requests : list request) : list Review :=
  fold_left step requests [].
End Routes.

Arguments give_review {metric} _ _ _ _ _ _ _.
Arguments seed_demo {metric} _ _ _ _.
Arguments charts {metric} _.
(** ** Facts about the text primitives *)

Lemma append_cons (a : ascii) (s t : string) :
  (String a s ++ t = String a (s ++ t))%string.
Proof. reflexivity. Qed.

Lemma prefix_true_iff (p text : string) :
  String.prefix p text = true <-> exists suf, text = (p ++ suf)%string.
Proof.
  revert text. induction p as [|a p IH]; intros text.
  - split; [intros _; exists text; reflexivity | intros _; destruct text; reflexivity].
  - destruct text as [|b text]; simpl.
    + split; [discriminate | intros [suf H]; discriminate H].
    + destruct (ascii_dec a b) as [->|Hne].
      * rewrite IH. split; intros [suf H]; exists suf.
        -- rewrite append_cons, <- H. reflexivity.
        -- rewrite append_cons in H. congruence.
      * split; [discriminate | intros [suf H]].
        rewrite append_cons in H. congruence.
Qed.

Lemma str_in_nil (p : string) : str_in p "" = String.prefix p "" || false.
Proof. reflexivity. Qed.

Lemma str_in_cons (p : string) (b : ascii) (text : string) :
  str_in p (String b text) = String.prefix p (String b text) || str_in p text.
Proof. reflexivity. Qed.

Lemma str_in_true_iff (p text : string) :
  str_in p text = true <-> occurs_in p text.
Proof.
  induction text as [|b text IH].
  - rewrite str_in_nil, orb_false_r, prefix_true_iff. split.
    + intros [suf H]. exists "", suf. exact H.
    + intros [pre [suf H]]. destruct pre as [|c pre]; [exists suf; exact H|].
      rewrite append_cons in H. discriminate H.
  - rewrite str_in_cons, orb_true_iff, prefix_true_iff, IH. split.
    + intros [[suf H] | [pre [suf H]]].
      * exists "", suf. exact H.
      * exists (String b pre), suf. rewrite append_cons, <- H. reflexivity.
    + intros [pre [suf H]]. destruct pre as [|c pre].
      * left. exists suf. exact H.
      * right. exists pre, suf. rewrite append_cons in H. congruence.
Qed.

Lemma str_in_empty (p : string) : p <> "" -> str_in p "" = false.
Proof. destruct p; [congruence | reflexivity]. Qed.

(** ** Facts about [sorted(list(set(xs)))] *)

Lemma sorted_set_elem_of (xs : list string) (x : string) :
  x ∈ sorted_set xs <-> x ∈ xs.
Proof.
  unfold sorted_set. rewrite merge_sort_Permutation, elem_of_elements.
  apply elem_of_list_to_set.
Qed.

Lemma sorted_set_NoDup (xs : list string) : NoDup (sorted_set xs).
Proof.
  unfold sorted_set. rewrite merge_sort_Permutation. apply NoDup_elements.
Qed.

Lemma sorted_set_sorted (xs : list string) :
  StronglySorted String.le (sorted_set xs).
Proof. apply (StronglySorted_merge_sort String.le). Qed.

Lemma sorted_set_nil_iff (xs : list string) : sorted_set xs = [] <-> xs = [].
Proof.
  split; [|intros ->; reflexivity].
  intros H. destruct xs as [|x xs]; [reflexivity|].
  assert (Hx : x ∈ sorted_set (x :: xs)) by (apply sorted_set_elem_of; left).
  rewrite H in Hx. inversion Hx.
Qed.

(** A sorted, duplicate-free list is fixed by its elements: the order in
    which the set was enumerated does not show in the result. *)
Lemma sorted_set_unique (xs l : list string) :
  StronglySorted String.le l -> NoDup l -> (forall x, x ∈ l <-> x ∈ xs) ->
  l = sorted_set xs.
Proof.
  intros Hs Hn Hel. apply (StronglySorted_unique String.le).
  - exact Hs.
  - apply sorted_set_sorted.
  - apply NoDup_Permutation; [exact Hn | apply sorted_set_NoDup |].
    intros x. rewrite Hel, sorted_set_elem_of. reflexivity.
Qed.

(** ** The extractor and the transaction builder *)

Lemma ascii_lower_app (s t : string) :
  ascii_lower (s ++ t) = (ascii_lower s ++ ascii_lower t)%string.
Proof.
  induction s as [|a s IH]; [reflexivity|].
  rewrite append_cons. simpl. rewrite IH. reflexivity.
Qed.

Lemma ascii_lower_occurs (p text : string) :
  occurs_in p text -> occurs_in (ascii_lower p) (ascii_lower text).
Proof.
  intros [pre [suf ->]]. exists (ascii_lower pre), (ascii_lower suf).
  rewrite !ascii_lower_app. reflexivity.
Qed.

Section ExtractorFacts.
Variable lower : string -> string.

Lemma products_found_elem_of (review : option string) (p : string) :
  p ∈ products_found lower review <->
  p ∈ product_list /\ occurs_in p (lower (or_empty review)).
Proof.
  unfold products_found. rewrite !list_elem_of_In, filter_In.
  rewrite str_in_true_iff. reflexivity.
Qed.

Lemma transaction_of_elem_of (review : option string) (p : string) :
  p ∈ transaction_of lower review <->
  p ∈ product_list /\ occurs_in p (lower (or_empty review)).
Proof.
  unfold transaction_of. rewrite sorted_set_elem_of.
  apply products_found_elem_of.
Qed.

Lemma mentions_tag_true_iff (review : option string) :
  mentions_tag lower review = true <->
  exists p, p ∈ product_list /\ occurs_in p (lower (or_empty review)).
Proof.
  unfold mentions_tag. split.
  - destruct (products_found lower review) as [|p found] eqn:E; [discriminate|].
    intros _. exists p. apply products_found_elem_of. rewrite E. left.
  - intros [p Hp]. apply products_found_elem_of in Hp.
    destruct (products_found lower review); [inversion Hp | reflexivity].
Qed.

Lemma mentions_tag_transaction (review : option string) :
  mentions_tag lower review = true <-> transaction_of lower review <> [].
Proof.
  unfold mentions_tag, transaction_of. rewrite sorted_set_nil_iff.
  destruct (products_found lower review); split; congruence.
Qed.

Lemma extract_step_eq (transactions : list (list string))
    (review : option string) :
  extract_step lower transactions review =
  if mentions_tag lower review
  then transactions ++ [transaction_of lower review]
  else transactions.
Proof.
  unfold extract_step, mentions_tag, transaction_of.
  destruct (products_found lower review); reflexivity.
Qed.

Lemma extract_fold (reviews : list (option string))
    (transactions : list (list string)) :
  fold_left (extract_step lower) reviews transactions =
  transactions ++
    map (transaction_of lower) (List.filter (mentions_tag lower) reviews).
Proof.
  revert transactions.
  induction reviews as [|review reviews IH]; intros transactions; simpl.
  - rewrite app_nil_r. reflexivity.
  - rewrite IH, extract_step_eq.
    destruct (mentions_tag lower review); [|reflexivity].
    simpl. rewrite <- app_assoc. reflexivity.
Qed.

Lemma extract_eq (reviews : list (option string)) :
  extract_products_from_reviews lower reviews =
  map (transaction_of lower) (List.filter (mentions_tag lower) reviews).
Proof. apply extract_fold. Qed.

Lemma extract_app (pre post : list (option string)) :
  extract_products_from_reviews lower (pre ++ post) =
  extract_products_from_reviews lower pre ++
  extract_products_from_reviews lower post.
Proof. rewrite !extract_eq, List.filter_app, map_app. reflexivity. Qed.

Lemma origins_from_length (i : nat) (reviews : list (option string)) :
  length (origins_from lower i reviews) =
  length (extract_products_from_reviews lower reviews).
Proof.
  rewrite extract_eq. revert i.
  induction reviews as [|review reviews IH]; intros i; simpl; [reflexivity|].
  destruct (mentions_tag lower review); simpl; rewrite IH; reflexivity.
Qed.

(** Transaction [k] is the transaction of the review at position
    [origins_from 0 reviews !! k]. *)
Lemma origins_from_lookup (reviews : list (option string)) (i k : nat)
    (t : list string) :
  extract_products_from_reviews lower reviews !! k = Some t ->
  exists j review,
    origins_from lower i reviews !! k = Some (i + j)%nat /\
    reviews !! j = Some review /\
    mentions_tag lower review = true /\
    t = transaction_of lower review.
Proof.
  rewrite extract_eq. revert i k.
  induction reviews as [|review reviews IH]; intros i k; simpl;
    [intros H; inversion H|].
  destruct (mentions_tag lower review) eqn:E; simpl.
  - destruct k as [|k]; simpl.
    + intros [= <-]. exists 0%nat, review.
      rewrite Nat.add_0_r. auto.
    + intros H. destruct (IH (S i) k H) as (j & r & H1 & H2 & H3 & H4).
      exists (S j), r. rewrite H1.
      replace (i + S j)%nat with (S i + j)%nat by lia. auto.
  - intros H. destruct (IH (S i) k H) as (j & r & H1 & H2 & H3 & H4).
    exists (S j), r. rewrite H1.
    replace (i + S j)%nat with (S i + j)%nat by lia. repeat split; assumption.
Qed.
End ExtractorFacts.

(** ** The keyword composer *)

Lemma any_in_true_iff (keywords : list string) (content : string) :
  any_in keywords content = true <->
  exists keyword, keyword ∈ keywords /\ occurs_in keyword content.
Proof.
  unfold any_in. rewrite existsb_exists. split.
  - intros [k [Hk H]]. exists k. rewrite list_elem_of_In, <- str_in_true_iff. auto.
  - intros [k [Hk H]]. exists k. rewrite <- list_elem_of_In, str_in_true_iff. auto.
Qed.

Section KeywordFacts.
Variable lower : string -> string.
Variable rng : Type.
Variable randbelow : nat -> rng -> nat * rng.

Local Abbreviation recommend' := (recommend lower rng randbelow).
Local Abbreviation simple_loop' := (simple_loop lower rng randbelow).

Lemma simple_loop_app (pre post : list (option string))
    (selected : list string) (g : rng) :
  simple_loop' (pre ++ post) selected g =
  simple_loop' post (fst (simple_loop' pre selected g))
                   (snd (simple_loop' pre selected g)).
Proof.
  revert selected g.
  induction pre as [|review pre IH]; intros selected g; simpl; [reflexivity|].
  destruct (recommend' review g) as [r g'].
  apply IH.
Qed.

Lemma simple_loop_acc (reviews : list (option string))
    (selected : list string) (g : rng) :
  simple_loop' reviews selected g =
  (selected ++ fst (simple_loop' reviews [] g), snd (simple_loop' reviews [] g)).
Proof.
  revert selected g.
  induction reviews as [|review reviews IH]; intros selected g; simpl.
  - rewrite app_nil_r. reflexivity.
  - destruct (recommend' review g) as [r g'].
    rewrite (IH (selected ++ [r])), (IH [r]). simpl.
    rewrite <- app_assoc. reflexivity.
Qed.

Lemma simple_loop_cons (review : option string)
    (reviews : list (option string)) (g : rng) :
  fst (simple_loop' (review :: reviews) [] g) =
  fst (recommend' review g) ::
  fst (simple_loop' reviews [] (snd (recommend' review g))).
Proof.
  simpl.
  destruct (recommend' review g) as [r g'].
  rewrite simple_loop_acc. reflexivity.
Qed.

Lemma simple_loop_length (reviews : list (option string)) (g : rng) :
  length (fst (simple_loop' reviews [] g)) = length reviews.
Proof.
  revert g. induction reviews as [|review reviews IH]; intros g; [reflexivity|].
  rewrite simple_loop_cons. simpl. rewrite IH. reflexivity.
Qed.

(** Each output is the recommendation of the review at its position, in
    the generator state reached there. *)
Lemma simple_loop_pointwise (P : option string -> string -> Prop)
    (reviews : list (option string)) (g : rng) :
  (forall review g', P review (fst (recommend' review g'))) ->
  Forall2 P reviews (fst (simple_loop' reviews [] g)).
Proof.
  intros HP. revert g.
  induction reviews as [|review reviews IH]; intros g.
  - constructor.
  - rewrite simple_loop_cons. constructor; [apply HP | apply IH].
Qed.

Lemma recommend_fallback (review : option string) (g : rng) :
  lower (or_empty review) = "" ->
  recommend' review g = (fallback_recommendation, g).
Proof.
  intros H. unfold recommend. rewrite H. reflexivity.
Qed.

Hypothesis randbelow_lt :
  forall n g, (0 < n)%nat -> (fst (randbelow n g) < n)%nat.

Lemma choice_elem_of (pool : list string) (g : rng) :
  pool <> [] -> fst (choice rng randbelow pool g) ∈ pool.
Proof.
  intros Hne. unfold choice.
  assert (Hlen : (0 < length pool)%nat)
    by (destruct pool; [congruence | simpl; lia]).
  specialize (randbelow_lt (length pool) g Hlen).
  destruct (randbelow (length pool) g) as [i g']. simpl in *.
  apply list_elem_of_In, nth_In. exact randbelow_lt.
Qed.

Lemma recommend_classes (review : option string) (g : rng) :
  let content := lower (or_empty review) in
  let r := fst (recommend' review g) in
  if any_in positive_keywords content then r ∈ positive_recommendations
  else if any_in negative_keywords content then r ∈ negative_recommendations
  else if any_in neutral_keywords content then r ∈ neutral_recommendations
  else r = fallback_recommendation.
Proof.
  cbv zeta. unfold recommend.
  destruct (any_in positive_keywords (lower (or_empty review)));
    [apply choice_elem_of; discriminate|].
  destruct (any_in negative_keywords (lower (or_empty review)));
    [apply choice_elem_of; discriminate|].
  destruct (any_in neutral_keywords (lower (or_empty review)));
    [apply choice_elem_of; discriminate|].
  reflexivity.
Qed.
End KeywordFacts.

(** ** Labels and counts *)

(** A score below [-0.05] is not above [0.05]: the two tests of [label]
    never both hold, whatever the float (infinities and NaN included). *)
Lemma below_not_above (s : float) :
  (s <? -0.05)%float = true -> (0.05 <? s)%float = false.
Proof.
  rewrite !ltb_spec.
  replace (Prim2SF (-0.05)%float)
    with (S754_finite true 7205759403792794 (-57)) by (vm_compute; reflexivity).
  replace (Prim2SF (0.05)%float)
    with (S754_finite false 7205759403792794 (-57)) by (vm_compute; reflexivity).
  destruct (Prim2SF s) as [sg|sg| |sg m e]; try destruct sg;
    unfold SFltb, SFcompare; try discriminate; reflexivity.
Qed.

Lemma label_cases (score : option float) :
  label score = "Positive" \/ label score = "Neutral" \/
  label score = "Negative".
Proof.
  destruct score as [s|]; simpl; [|tauto].
  destruct (0.05 <? s)%float; [tauto|].
  destruct (s <? -0.05)%float; tauto.
Qed.

Lemma value_counts_fold (labels : list string) (counts : gmap string nat)
    (l : string) :
  default 0%nat
    (fold_left
       (fun counts l => <[l := S (default 0%nat (counts !! l))]> counts)
       labels counts !! l) =
  (default 0%nat (counts !! l) + count_occ string_dec labels l)%nat.
Proof.
  revert counts. induction labels as [|a labels IH]; intros counts.
  - simpl. lia.
  - cbn [fold_left]. rewrite IH. cbn [count_occ].
    destruct (string_dec a l) as [->|Hne].
    + rewrite lookup_insert_eq. simpl. lia.
    + rewrite lookup_insert_ne by exact Hne. reflexivity.
Qed.

Lemma value_counts_lookup (labels : list string) (l : string) :
  default 0%nat (value_counts labels !! l) = count_occ string_dec labels l.
Proof.
  unfold value_counts. rewrite value_counts_fold, lookup_empty. reflexivity.
Qed.

Lemma value_counts_absent (labels : list string) (l : string) :
  value_counts labels !! l = None <-> l ∉ labels.
Proof.
  unfold value_counts.
  assert (H : forall counts : gmap string nat,
             fold_left
               (fun counts l => <[l := S (default 0%nat (counts !! l))]> counts)
               labels counts !! l = None <->
             counts !! l = None /\ l ∉ labels).
  { induction labels as [|a labels IH]; intros counts.
    - simpl. rewrite elem_of_nil. tauto.
    - cbn [fold_left]. rewrite IH, not_elem_of_cons.
      destruct (decide (a = l)) as [->|Hne].
      + rewrite lookup_insert_eq. split; [intros [[=] _] | intros [_ [[] _]]].
        reflexivity.
      + rewrite lookup_insert_ne by exact Hne. split; intros; [|tauto].
        split; [tauto|]. split; [congruence | tauto]. }
  rewrite H, lookup_empty. tauto.
Qed.

(** ** The rule-based composer *)

Lemma in_row_true_iff (product : string) (row : list string) :
  in_row product row = true <-> product ∈ row.
Proof.
  unfold in_row. rewrite existsb_exists, list_elem_of_In. split.
  - intros [x [Hx He]]. apply String.eqb_eq in He. subst x. exact Hx.
  - intros H. exists product. split; [exact H | apply String.eqb_refl].
Qed.

Lemma all_in_row_true_iff (products row : list string) :
  all_in_row products row = true <-> products ⊆ row.
Proof.
  unfold all_in_row. rewrite forallb_forall. split.
  - intros H x Hx. apply in_row_true_iff, H, list_elem_of_In, Hx.
  - intros H x Hx. apply in_row_true_iff, H, list_elem_of_In, Hx.
Qed.

Lemma iloc_nil {A : Type} (i : Z) : iloc (@nil A) i = None.
Proof.
  unfold iloc. cbn [length].
  destruct ((0 <=? i)%Z && (i <? Z.of_nat 0)%Z); [apply lookup_nil|].
  destruct ((- Z.of_nat 0 <=? i)%Z && (i <? 0)%Z); [apply lookup_nil|].
  reflexivity.
Qed.

Lemma iloc_in_range {A : Type} (frame : list A) (i : Z) :
  (0 <= i < Z.of_nat (length frame))%Z ->
  iloc frame i = frame !! Z.to_nat i /\ is_Some (frame !! Z.to_nat i).
Proof.
  intros [H0 H1]. unfold iloc.
  assert (E0 : (0 <=? i)%Z = true) by (apply Z.leb_le; exact H0).
  assert (E1 : (i <? Z.of_nat (length frame))%Z = true)
    by (apply Z.ltb_lt; exact H1).
  rewrite E0, E1. split; [reflexivity|].
  apply lookup_lt_is_Some_2. lia.
Qed.

Lemma sentiment_at_nil (idx : Z) : sentiment_at [] idx = None.
Proof. apply iloc_nil. Qed.

(** With at least one row of sentiments, transaction [idx] is given the
    row at position [idx], or the last row when [idx] is past the end. *)
Lemma sentiment_at_clamped (sentiments : list polarity) (idx : nat) :
  sentiments <> [] ->
  sentiment_at sentiments (Z.of_nat idx) =
    sentiments !! Nat.min idx (length sentiments - 1) /\
  is_Some (sentiment_at sentiments (Z.of_nat idx)).
Proof.
  intros Hne. unfold sentiment_at.
  assert (Hlen : (0 < length sentiments)%nat)
    by (destruct sentiments; [congruence | simpl; lia]).
  destruct (iloc_in_range sentiments
              (Z.min (Z.of_nat idx) (Z.of_nat (length sentiments) - 1)))
    as [E S]; [lia|].
  rewrite E in *.
  replace (Z.to_nat (Z.min (Z.of_nat idx) (Z.of_nat (length sentiments) - 1)))
    with (Nat.min idx (length sentiments - 1)) in * by lia.
  split; [reflexivity | exact S].
Qed.

Section ComposerFacts.
Variable metric : Type.
Variable round3 : metric -> metric.

Lemma rules_loop_eq (positive_review : bool) (row : list string)
    (rules : list (rule metric)) (acc : list (recommendation metric)) :
  rules_loop round3 positive_review row rules acc =
  acc ++ map (recommend_rule round3 positive_review)
           (List.filter (fun r => all_in_row (antecedents r) row) rules).
Proof.
  revert acc. induction rules as [|r rules IH]; intros acc; simpl.
  - rewrite app_nil_r. reflexivity.
  - destruct (all_in_row (antecedents r) row); rewrite IH; [|reflexivity].
    simpl. rewrite <- app_assoc. reflexivity.
Qed.


(** The outer loop returns a list whenever there is a row of sentiments. *)
Lemma transactions_loop_total (rules : list (rule metric))
    (sentiments : list polarity) (rows : list (list string)) :
  sentiments <> [] ->
  forall (idx : nat) (acc : list (recommendation metric)),
    is_Some (transactions_loop round3 rules sentiments (Z.of_nat idx) rows acc).
Proof.
  intros Hne. induction rows as [|row rows IH]; intros idx acc; simpl.
  - eexists. reflexivity.
  - replace (Z.of_nat idx + 1)%Z with (Z.of_nat (S idx)) by lia.
    destruct (length row =? 0)%nat; [apply IH|].
    destruct (sentiment_at_clamped sentiments idx Hne) as [_ [s Hs]].
    rewrite Hs. apply IH.
Qed.


End ComposerFacts.

(** ** The two loops in closed form *)

Section ComposerClosed.
Variable metric : Type.
Variable round3 : metric -> metric.

(** The outer loop in closed form: the accumulator, then for each row in
    turn the recommendations of the rules that match it, in the order of
    the rules. *)
Lemma transactions_loop_closed (rules : list (rule metric))
    (sentiments : list polarity) (rows : list (list string)) :
  sentiments <> [] ->
  forall (idx : nat) (acc : list (recommendation metric)),
    transactions_loop round3 rules sentiments (Z.of_nat idx) rows acc =
    Some (acc ++
          concat (imap
            (fun k row =>
               match row, sentiment_at sentiments (Z.of_nat (idx + k)) with
               | _ :: _, Some sentiment =>
                   map (recommend_rule round3
                          (0.05 <? compound sentiment)%float)
                       (List.filter
                          (fun r => all_in_row (antecedents r) row) rules)
               | _, _ => []
               end) rows)).
Proof.
  intros Hne. induction rows as [|row rows IH]; intros idx acc.
  - simpl. rewrite app_nil_r. reflexivity.
  - rewrite imap_cons. cbn [transactions_loop concat].
    replace (Z.of_nat idx + 1)%Z with (Z.of_nat (S idx)) by lia.
    rewrite Nat.add_0_r.
    assert (Hext :
      imap ((fun k row0 =>
               match row0, sentiment_at sentiments (Z.of_nat (idx + k)) with
               | _ :: _, Some sentiment =>
                   map (recommend_rule round3
                          (0.05 <? compound sentiment)%float)
                       (List.filter
                          (fun r => all_in_row (antecedents r) row0) rules)
               | _, _ => []
               end) ∘ S) rows =
      imap (fun k row0 =>
               match row0, sentiment_at sentiments (Z.of_nat (S idx + k)) with
               | _ :: _, Some sentiment =>
                   map (recommend_rule round3
                          (0.05 <? compound sentiment)%float)
                       (List.filter
                          (fun r => all_in_row (antecedents r) row0) rules)
               | _, _ => []
               end) rows).
    { apply imap_ext. intros k row0 _. simpl.
      replace (idx + S k)%nat with (S (idx + k)) by lia. reflexivity. }
    rewrite Hext. destruct row as [|p row].
    + simpl. apply IH.
    + cbn [length Nat.eqb].
      destruct (sentiment_at_clamped sentiments idx Hne) as [_ [s Hs]].
      rewrite Hs, IH, rules_loop_eq, <- app_assoc. reflexivity.
Qed.

Lemma concat_imap_nil {A B : Type} (f : nat -> A -> list B) (l : list A) :
  (forall k x, f k x = []) -> concat (imap f l) = [].
Proof.
  revert f. induction l as [|x l IH]; intros f H; [reflexivity|].
  rewrite imap_cons. simpl. rewrite H. apply IH. intros k y. apply H.
Qed.
End ComposerClosed.

(** ** The miner *)

Lemma flat_map_sublist {A B : Type} (f g : A -> list B) (l : list A) :
  (forall x, f x `sublist_of` g x) ->
  flat_map f l `sublist_of` flat_map g l.
Proof.
  intros H. induction l as [|x l IH]; simpl; [constructor|].
  apply sublist_app; [apply H | exact IH].
Qed.

Lemma apriori_elem_of (min_support : Q) (transactions : list (list string))
    (row : itemset_row Q) :
  row ∈ Miner.apriori min_support transactions <->
  itemsets row ∈ Miner.subsets (Miner.universe transactions) /\
  itemsets row <> [] /\
  itemset_support row = Miner.support_of transactions (itemsets row) /\
  (min_support <= itemset_support row)%Q.
Proof.
  unfold Miner.apriori. rewrite list_elem_of_In, in_flat_map. split.
  - intros [tags [Htags Hrow]]. destruct tags as [|t tags]; [inversion Hrow|].
    destruct (Qle_bool min_support
                (Miner.support_of transactions (t :: tags))) eqn:E;
      [|inversion Hrow].
    destruct Hrow as [<-|[]]. simpl.
    rewrite list_elem_of_In. apply Qle_bool_iff in E.
    repeat split; [exact Htags | discriminate | exact E].
  - intros (Hin & Hne & Hs & Hle). destruct row as [s tags]. simpl in *.
    exists tags. rewrite <- list_elem_of_In. split; [exact Hin|].
    destruct tags as [|t tags]; [congruence|]. subst s.
    apply Qle_bool_iff in Hle. rewrite Hle. left. reflexivity.
Qed.

Lemma apriori_sublist (s1 s2 : Q) (transactions : list (list string)) :
  (s1 <= s2)%Q ->
  Miner.apriori s2 transactions `sublist_of` Miner.apriori s1 transactions.
Proof.
  intros Hle. unfold Miner.apriori. apply flat_map_sublist.
  intros [|t tags]; [constructor|].
  destruct (Qle_bool s2 (Miner.support_of transactions (t :: tags))) eqn:E2;
    [|apply sublist_nil_l].
  apply Qle_bool_iff in E2.
  assert (E1 : Qle_bool s1 (Miner.support_of transactions (t :: tags)) = true).
  { apply Qle_bool_iff. eapply Qle_trans; [exact Hle | exact E2]. }
  rewrite E1. reflexivity.
Qed.

(** ** Claims about the extractor, the builder and the keyword composer *)

(** C6 — For every text, the tags the extractor appends are exactly the
    vocabulary tags that occur in the lower-cased text, without repetition
    and in increasing order; a text with at least one tag gives that one
    transaction and a text with none gives no transaction. Two texts with
    the same lower-cased form give the same tags, and the two spellings
    of "great pizza and fries" both give fries and pizza. *)
Theorem item_extractor_spec (lower : string -> string) (text text' : string)
    (Hcase : lower text' = lower text) :
  let tags := transaction_of lower (Some text) in
  (forall p, p ∈ tags <-> p ∈ product_list /\ occurs_in p (lower text)) /\
  NoDup tags /\
  StronglySorted String.le tags /\
  extract_products_from_reviews lower [Some text] =
    (if mentions_tag lower (Some text) then [tags] else []) /\
  transaction_of lower (Some text') = tags /\
  extract_products_from_reviews lower [Some text'] =
    extract_products_from_reviews lower [Some text] /\
  extract_products_from_reviews ascii_lower [Some "GREAT Pizza and Fries"] =
    [["fries"; "pizza"]] /\
  extract_products_from_reviews ascii_lower [Some "great pizza and fries"] =
    [["fries"; "pizza"]].
Proof.
  cbv zeta.
  assert (Hfound : products_found lower (Some text') =
                   products_found lower (Some text)).
  { unfold products_found. simpl. rewrite Hcase. reflexivity. }
  split; [|split; [|split; [|split; [|split; [|split; [|split]]]]]].
  - intros p. apply (transaction_of_elem_of lower (Some text) p).
  - apply sorted_set_NoDup.
  - apply sorted_set_sorted.
  - rewrite extract_eq. simpl.
    destruct (mentions_tag lower (Some text)); reflexivity.
  - unfold transaction_of. rewrite Hfound. reflexivity.
  - rewrite !extract_eq. simpl. unfold mentions_tag, transaction_of.
    rewrite Hfound.
    destruct (products_found lower (Some text)) eqn:E; simpl;
      rewrite ?Hfound, ?E; reflexivity.
  - vm_compute. reflexivity.
  - vm_compute. reflexivity.
Qed.

Lemma item_extractor_spec_witness :
  ascii_lower "GREAT Pizza and Fries" = ascii_lower "great pizza and fries" /\
  transaction_of ascii_lower (Some "GREAT Pizza and Fries") =
  transaction_of ascii_lower (Some "great pizza and fries").
Proof.
  split; [reflexivity|].
  exact (proj1 (proj2 (proj2 (proj2 (proj2
    (item_extractor_spec ascii_lower "great pizza and fries"
       "GREAT Pizza and Fries" eq_refl)))))).
Defined.

(** C7 — For every sequence of reviews the builder returns, in the order of
    the reviews, the tags of each review that mentions at least one
    vocabulary tag, and nothing for the others; no transaction is empty;
    the reviews "no tags here", "love the pizza" give the one transaction
    pizza. *)
Theorem transaction_builder_spec (lower : string -> string)
    (reviews : list (option string)) :
  extract_products_from_reviews lower reviews =
    map (transaction_of lower) (List.filter (mentions_tag lower) reviews) /\
  (forall review,
     mentions_tag lower review = true <->
     exists p, p ∈ product_list /\ occurs_in p (lower (or_empty review))) /\
  Forall (fun t => t <> []) (extract_products_from_reviews lower reviews) /\
  extract_products_from_reviews ascii_lower
    [Some "no tags here"; Some "love the pizza"] = [["pizza"]].
Proof.
  split; [apply extract_eq|].
  split; [apply mentions_tag_true_iff|].
  split; [|vm_compute; reflexivity].
  rewrite extract_eq. apply Forall_forall. intros t Ht.
  apply list_elem_of_In, in_map_iff in Ht. destruct Ht as [review [<- Hr]].
  apply filter_In in Hr. apply mentions_tag_transaction. tauto.
Qed.

(** A review whose lower-cased text contains a positive keyword gets a
    string of the positive pool. *)
Lemma positive_keyword_positive_pool (lower : string -> string) (rng : Type)
    (randbelow : nat -> rng -> nat * rng)
    (randbelow_lt : forall n g, (0 < n)%nat -> (fst (randbelow n g) < n)%nat)
    (keyword text : string) (g : rng) :
  keyword ∈ positive_keywords -> occurs_in keyword (lower text) ->
  exists r,
    fst (generate_simple_recommendations lower rng randbelow [Some text] g)
      = [r] /\
    r ∈ positive_recommendations.
Proof.
  intros Hkw Hocc.
  exists (fst (recommend lower rng randbelow (Some text) g)). split.
  - unfold generate_simple_recommendations. rewrite simple_loop_cons.
    reflexivity.
  - pose proof (recommend_classes lower rng randbelow randbelow_lt
                  (Some text) g) as H. cbv zeta in H.
    assert (Hpos : any_in positive_keywords (lower (or_empty (Some text)))
                   = true).
    { apply any_in_true_iff. exists keyword. split; assumption. }
    rewrite Hpos in H. exact H.
Qed.

(** C8 — For every sequence of reviews and every state of the generator,
    the composer returns one string per review, and the string for a
    review is drawn from the positive pool when a positive keyword occurs
    in its lower-cased text, else from the negative pool when a negative
    keyword occurs, else from the neutral pool when a neutral keyword
    occurs, else it is the fixed fallback. A text whose lower-cased form
    contains "amazing" gets one of the five positive templates; with the
    ASCII lower-casing that is every text containing "amazing" in any
    mix of cases. *)
Theorem keyword_composer_spec (lower : string -> string) (rng : Type)
    (randbelow : nat -> rng -> nat * rng)
    (randbelow_lt : forall n g, (0 < n)%nat -> (fst (randbelow n g) < n)%nat)
    (reviews : list (option string)) (g : rng) :
  Forall2
    (fun review r =>
       let content := lower (or_empty review) in
       if any_in positive_keywords content then r ∈ positive_recommendations
       else if any_in negative_keywords content
            then r ∈ negative_recommendations
       else if any_in neutral_keywords content
            then r ∈ neutral_recommendations
       else r = fallback_recommendation)
    reviews
    (fst (generate_simple_recommendations lower rng randbelow reviews g)) /\
  (forall keywords content,
     any_in keywords content = true <->
     exists keyword, keyword ∈ keywords /\ occurs_in keyword content) /\
  length positive_recommendations = 5%nat /\
  (forall text : string,
     occurs_in "amazing" (lower text) ->
     exists r,
       fst (generate_simple_recommendations lower rng randbelow
              [Some text] g) = [r] /\
       r ∈ positive_recommendations) /\
  (forall spelling text : string,
     ascii_lower spelling = "amazing" -> occurs_in spelling text ->
     exists r,
       fst (generate_simple_recommendations ascii_lower rng randbelow
              [Some text] g) = [r] /\
       r ∈ positive_recommendations).
Proof.
  assert (Hkw : "amazing" ∈ positive_keywords)
    by (apply list_elem_of_In; simpl; tauto).
  split; [|split; [|split; [|split]]].
  - apply simple_loop_pointwise. intros review g'.
    apply (recommend_classes lower rng randbelow randbelow_lt review g').
  - apply any_in_true_iff.
  - reflexivity.
  - intros text Hocc.
    apply (positive_keyword_positive_pool lower rng randbelow randbelow_lt
             "amazing" text g Hkw Hocc).
  - intros spelling text Hsp Hocc.
    apply (positive_keyword_positive_pool ascii_lower rng randbelow
             randbelow_lt "amazing" text g Hkw).
    rewrite <- Hsp. apply ascii_lower_occurs, Hocc.
Qed.

Lemma counter_randbelow_lt (n g : nat) :
  (0 < n)%nat -> (fst (counter_randbelow n g) < n)%nat.
Proof. intros H. simpl. apply Nat.mod_upper_bound. lia. Qed.

Lemma keyword_composer_spec_witness :
  Forall2
    (fun review r =>
       let content := ascii_lower (or_empty review) in
       if any_in positive_keywords content then r ∈ positive_recommendations
       else if any_in negative_keywords content
            then r ∈ negative_recommendations
       else if any_in neutral_keywords content
            then r ∈ neutral_recommendations
       else r = fallback_recommendation)
    [Some "This is AMAZING"; Some "nothing to say"]
    (fst (generate_simple_recommendations ascii_lower nat counter_randbelow
            [Some "This is AMAZING"; Some "nothing to say"] 7%nat)).
Proof.
  exact (proj1 (keyword_composer_spec ascii_lower nat counter_randbelow
                  counter_randbelow_lt
                  [Some "This is AMAZING"; Some "nothing to say"] 7%nat)).
Defined.

(** C10 — When [str.lower] maps the empty text to itself, a [None] entry
    anywhere in the input is treated as the empty text by both functions,
    which return a value: the extractor builds no transaction for it, and
    the keyword composer answers it with the fixed fallback, at its
    position, one string per entry. *)
Theorem none_entries_spec (lower : string -> string) (rng : Type)
    (randbelow : nat -> rng -> nat * rng) (Hlower : lower "" = "")
    (pre post : list (option string)) (g : rng) :
  extract_products_from_reviews lower (pre ++ None :: post) =
    extract_products_from_reviews lower (pre ++ post) /\
  extract_products_from_reviews lower (pre ++ None :: post) =
    extract_products_from_reviews lower (pre ++ Some "" :: post) /\
  generate_simple_recommendations lower rng randbelow (pre ++ None :: post) g =
    generate_simple_recommendations lower rng randbelow
      (pre ++ Some "" :: post) g /\
  fst (generate_simple_recommendations lower rng randbelow
         (pre ++ None :: post) g) !! length pre =
    Some fallback_recommendation /\
  length (fst (generate_simple_recommendations lower rng randbelow
                 (pre ++ None :: post) g)) =
    length (pre ++ None :: post).
Proof.
  assert (Hnone : mentions_tag lower None = false).
  { unfold mentions_tag, products_found. simpl. rewrite Hlower. reflexivity. }
  assert (Hsome : mentions_tag lower (Some "") = false).
  { unfold mentions_tag, products_found. simpl. rewrite Hlower. reflexivity. }
  unfold generate_simple_recommendations.
  split; [|split; [|split; [|split]]].
  - rewrite !extract_eq, !List.filter_app. simpl. rewrite Hnone. reflexivity.
  - rewrite !extract_eq, !List.filter_app. simpl. rewrite Hnone, Hsome.
    reflexivity.
  - rewrite !simple_loop_app. reflexivity.
  - rewrite simple_loop_app, simple_loop_acc.
    destruct (simple_loop lower rng randbelow pre [] g) as [sel g1] eqn:E.
    cbn [fst snd].
    assert (Hlen : length sel = length pre).
    { rewrite <- (simple_loop_length lower rng randbelow pre g), E.
      reflexivity. }
    rewrite simple_loop_cons.
    rewrite (recommend_fallback lower rng randbelow None g1 Hlower).
    rewrite <- Hlen. apply list_lookup_middle. reflexivity.
  - apply simple_loop_length.
Qed.

Lemma none_entries_spec_witness :
  ascii_lower "" = "" /\
  extract_products_from_reviews ascii_lower
    ([Some "love the pizza"] ++ None :: [Some "Fries were bad"]) =
  extract_products_from_reviews ascii_lower
    ([Some "love the pizza"] ++ [Some "Fries were bad"]).
Proof.
  split; [reflexivity|].
  exact (proj1 (none_entries_spec ascii_lower nat counter_randbelow eq_refl
                  [Some "love the pizza"] [Some "Fries were bad"] 0%nat)).
Defined.

(** ** Claim about the sentiment aggregator *)

(** C5 — An absent score is labelled Neutral; a present score is labelled
    Positive exactly when it is above 0.05, Negative exactly when it is
    below -0.05 and Neutral exactly when it is neither. For every list of
    stored rows the counts are given for Positive, Neutral and Negative in
    that order, each the number of rows with that label, zero when there
    is none; the scores 0.5, -0.5, None, 0.0 give Positive 1, Neutral 2,
    Negative 1. *)
Theorem sentiment_aggregator_spec (reviews : list Review) :
  let labels := map (fun r => label (sentiment_score r)) reviews in
  label None = "Neutral" /\
  (forall s, label (Some s) = "Positive" <-> (0.05 <? s)%float = true) /\
  (forall s, label (Some s) = "Negative" <-> (s <? -0.05)%float = true) /\
  (forall s, label (Some s) = "Neutral" <->
             (0.05 <? s)%float = false /\ (s <? -0.05)%float = false) /\
  sentiment_counts reviews =
    [ ("Positive", count_occ string_dec labels "Positive");
      ("Neutral", count_occ string_dec labels "Neutral");
      ("Negative", count_occ string_dec labels "Negative") ] /\
  sentiment_counts
    (map (fun score => {| id := 0; content := "text";
                          sentiment_score := score; created_at := 0 |})
         [Some 0.5%float; Some (-0.5)%float; None; Some 0%float]) =
    [("Positive", 1); ("Neutral", 2); ("Negative", 1)]%nat.
Proof.
  cbv zeta. split; [reflexivity|].
  split; [|split; [|split; [|split]]].
  - intros s. simpl. destruct (0.05 <? s)%float; [tauto|].
    destruct (s <? -0.05)%float; split; congruence.
  - intros s. simpl. split.
    + destruct (0.05 <? s)%float; [discriminate|].
      destruct (s <? -0.05)%float; [reflexivity | discriminate].
    + intros H. rewrite (below_not_above s H), H. reflexivity.
  - intros s. simpl. destruct (0.05 <? s)%float.
    + split; [discriminate | intros [H _]; discriminate H].
    + destruct (s <? -0.05)%float.
      * split; [discriminate | intros [_ H]; discriminate H].
      * tauto.
  - unfold sentiment_counts, fillna, reindex. simpl.
    rewrite !value_counts_lookup. reflexivity.
  - vm_compute. reflexivity.
Qed.

(** ** Claims about the rule-based composer and the miner *)

Section GenerateFacts.
Variable metric : Type.
Variable apriori : list (list string) -> list (itemset_row metric).
Variable association_rules : list (itemset_row metric) -> list (rule metric).
Variable round3 : metric -> metric.

Local Abbreviation generate :=
  (generate_recommendations apriori association_rules round3).

Lemma generate_total (transactions : list (list string))
    (sentiments : list polarity) :
  sentiments <> [] -> is_Some (generate transactions sentiments).
Proof.
  intros Hne. unfold generate_recommendations.
  destruct transactions as [|row rows]; [eexists; reflexivity|].
  destruct (apriori (row :: rows)); [eexists; reflexivity|].
  apply (transactions_loop_total metric round3 _ sentiments (row :: rows)
           Hne 0%nat).
Qed.


End GenerateFacts.

(** Whatever the three rows of sentiments, the recommendations for two
    burger-and-fries transactions are labelled by the first two rows. *)
Lemma two_transactions_three_sentiments (s0 s1 s2 : polarity) :
  let label_of := fun s : polarity =>
    if (0.05 <? compound s)%float then "Positive" else "Negative" in
  option_map (map rec_sentiment)
    (generate_recommendations (Miner.apriori (1 # 10))
       (Miner.association_rules 1) Miner.round3
       [["burger"; "fries"]; ["burger"; "fries"]] [s0; s1; s2]) =
  Some [label_of s0; label_of s0; label_of s1; label_of s1].
Proof.
  cbv zeta. unfold generate_recommendations.
  replace (Miner.apriori (1 # 10) [["burger"; "fries"]; ["burger"; "fries"]])
    with [ {| itemset_support := 1%Q; itemsets := ["burger"; "fries"] |};
           {| itemset_support := 1%Q; itemsets := ["burger"] |};
           {| itemset_support := 1%Q; itemsets := ["fries"] |} ]
    by (vm_compute; reflexivity).
  cbv iota beta.
  match goal with
  | |- context [Miner.association_rules ?a ?b] =>
      let r := eval vm_compute in (Miner.association_rules a b) in
      replace (Miner.association_rules a b) with r by (vm_compute; reflexivity)
  end.
  cbn [transactions_loop length Nat.eqb].
  replace (sentiment_at [s0; s1; s2] 0) with (Some s0) by reflexivity.
  replace (sentiment_at [s0; s1; s2] (0 + 1)) with (Some s1) by reflexivity.
  cbv iota beta zeta. rewrite !rules_loop_eq.
  destruct (0.05 <? compound s0)%float, (0.05 <? compound s1)%float;
    reflexivity.
Qed.

(** C1 — The sentiment paired with a transaction is the one at the
    position of the transaction, not the one of the review it was built
    from. Take a first review without tags and two reviews that both
    mention burger and fries: the two transactions come from reviews 1
    and 2, and whatever the scorer, their recommendations carry the
    labels of reviews 0 and 1; the score of review 2 is never read. With
    scores 0.0, 0.6 and -0.5 the recommendations of the positive review
    are labelled Negative and those of the negative review Positive. *)
Theorem sentiment_pairing_misaligned (polarity_scores : string -> polarity) :
  let r0 := "no tags here" in
  let r1 := "Love the burger and fries" in
  let r2 := "The burger and fries were awful" in
  let label_of := fun text : string =>
    if (0.05 <? compound (polarity_scores text))%float
    then "Positive" else "Negative" in
  extract_products_from_reviews ascii_lower [Some r0; Some r1; Some r2] =
    [["burger"; "fries"]; ["burger"; "fries"]] /\
  origins_from ascii_lower 0 [Some r0; Some r1; Some r2] = [1; 2]%nat /\
  option_map (map rec_sentiment)
    (product_recommendations ascii_lower polarity_scores
       (Miner.apriori (1 # 10)) (Miner.association_rules 1) Miner.round3
       [r0; r1; r2]) =
    Some [label_of r0; label_of r0; label_of r1; label_of r1] /\
  option_map (map rec_sentiment)
    (generate_recommendations (Miner.apriori (1 # 10))
       (Miner.association_rules 1) Miner.round3
       (extract_products_from_reviews ascii_lower [Some r0; Some r1; Some r2])
       [scored 0; scored 0.6; scored (-0.5)]) =
    Some ["Negative"; "Negative"; "Positive"; "Positive"].
Proof.
  cbv zeta.
  assert (Hts : extract_products_from_reviews ascii_lower
                  [ Some "no tags here"; Some "Love the burger and fries";
                    Some "The burger and fries were awful" ] =
                [["burger"; "fries"]; ["burger"; "fries"]])
    by (vm_compute; reflexivity).
  split; [exact Hts|]. split; [vm_compute; reflexivity|]. split.
  - unfold product_recommendations, analyze_sentiments.
    cbn [map]. rewrite Hts.
    apply (two_transactions_three_sentiments
             (polarity_scores "no tags here")
             (polarity_scores "Love the burger and fries")
             (polarity_scores "The burger and fries were awful")).
  - rewrite Hts. vm_compute. reflexivity.
Qed.

(** The result as the concatenation of one group per transaction. *)
Lemma generate_groups (metric : Type)
    (apriori : list (list string) -> list (itemset_row metric))
    (association_rules : list (itemset_row metric) -> list (rule metric))
    (round3 : metric -> metric)
    (transactions : list (list string)) (sentiments : list polarity) :
  sentiments <> [] ->
  generate_recommendations apriori association_rules round3
    transactions sentiments =
  Some (concat (imap
    (fun k row =>
       match apriori transactions, row,
             sentiment_at sentiments (Z.of_nat k) with
       | _ :: _, _ :: _, Some sentiment =>
           map (recommend_rule round3 (0.05 <? compound sentiment)%float)
               (List.filter (fun r => all_in_row (antecedents r) row)
                  (association_rules (apriori transactions)))
       | _, _, _ => []
       end) transactions)).
Proof.
  intros Hne. unfold generate_recommendations.
  destruct transactions as [|row0 rows]; [reflexivity|].
  destruct (apriori (row0 :: rows)) as [|i is_].
  - rewrite concat_imap_nil; reflexivity.
  - etransitivity;
      [apply (transactions_loop_closed metric round3
                (association_rules (i :: is_)) sentiments (row0 :: rows)
                Hne 0%nat [])|].
    reflexivity.
Qed.

(** C2 — With at least one row of sentiments the composer returns the
    concatenation of one group of recommendations per transaction, in the
    order of the transactions. The group of transaction k is built, with
    the sentiment paired with position k, from exactly the mined rules
    that pass the test of line 102 for that transaction (none for an empty
    transaction or when there is no frequent itemset), and each of these
    rules has all its antecedents in transaction k: no recommendation is
    emitted for a transaction and a rule whose antecedents are not all in
    that transaction. *)
Theorem composer_antecedent_subset (metric : Type)
    (apriori : list (list string) -> list (itemset_row metric))
    (association_rules : list (itemset_row metric) -> list (rule metric))
    (round3 : metric -> metric)
    (transactions : list (list string)) (sentiments : list polarity)
    (Hsentiments : sentiments <> []) :
  exists groups : list (list (recommendation metric)),
    generate_recommendations apriori association_rules round3
      transactions sentiments = Some (concat groups) /\
    length groups = length transactions /\
    forall (k : nat) (row : list string),
      transactions !! k = Some row ->
      exists sentiment matching,
        sentiment_at sentiments (Z.of_nat k) = Some sentiment /\
        groups !! k =
          Some (map (recommend_rule round3
                       (0.05 <? compound sentiment)%float) matching) /\
        matching =
          match apriori transactions, row with
          | _ :: _, _ :: _ =>
              List.filter (fun r => all_in_row (antecedents r) row)
                (association_rules (apriori transactions))
          | _, _ => []
          end /\
        forall r, r ∈ matching ->
          r ∈ association_rules (apriori transactions) /\
          forall product, product ∈ antecedents r -> product ∈ row.
Proof.
  exists (imap
    (fun k row =>
       match apriori transactions, row,
             sentiment_at sentiments (Z.of_nat k) with
       | _ :: _, _ :: _, Some sentiment =>
           map (recommend_rule round3 (0.05 <? compound sentiment)%float)
               (List.filter (fun r => all_in_row (antecedents r) row)
                  (association_rules (apriori transactions)))
       | _, _, _ => []
       end) transactions).
  split; [apply generate_groups; exact Hsentiments|].
  split; [apply length_imap|].
  intros k row Hk.
  destruct (sentiment_at_clamped sentiments k Hsentiments) as [_ [s Hs]].
  exists s. eexists. split; [exact Hs|]. split; [|split; [reflexivity|]].
  - rewrite list_lookup_imap, Hk. simpl. rewrite Hs.
    destruct (apriori transactions); [reflexivity|].
    destruct row; reflexivity.
  - intros r Hr.
    destruct (apriori transactions); [inversion Hr|].
    destruct row; [inversion Hr|].
    apply list_elem_of_In, filter_In in Hr. destruct Hr as [Hin Hall].
    split; [apply list_elem_of_In; exact Hin|].
    apply all_in_row_true_iff. exact Hall.
Qed.

Lemma composer_antecedent_subset_witness :
  [scored 0.6; scored 0] <> [] /\
  exists groups,
    generate_recommendations (Miner.apriori (1 # 10))
      (Miner.association_rules 1) Miner.round3
      [["burger"; "fries"]; ["sauce"]] [scored 0.6; scored 0]
      = Some (concat groups) /\
    length groups = 2%nat /\
    map (map rec_sentiment) groups = [["Positive"; "Positive"]; []].
Proof.
  split; [discriminate|].
  destruct (composer_antecedent_subset Q (Miner.apriori (1 # 10))
              (Miner.association_rules 1) Miner.round3
              [["burger"; "fries"]; ["sauce"]] [scored 0.6; scored 0])
    as (groups & Hgen & Hlen & Hgroups); [discriminate|].
  exists groups. split; [exact Hgen|]. split; [exact Hlen|].
  destruct (Hgroups 0%nat ["burger"; "fries"] eq_refl)
    as (s0 & m0 & Hs0 & Hg0 & Hm0 & _).
  destruct (Hgroups 1%nat ["sauce"] eq_refl)
    as (s1 & m1 & Hs1 & Hg1 & Hm1 & _).
  injection Hs0 as <-. injection Hs1 as <-.
  destruct groups as [|g0 [|g1 [|g2 groups]]]; try discriminate Hlen.
  simpl in Hg0, Hg1. injection Hg0 as ->. injection Hg1 as ->.
  rewrite Hm0, Hm1. vm_compute. reflexivity.
Defined.



(** C4 — When the transaction list is empty, or the miner finds no
    frequent itemset, [generate_recommendations] returns the empty list,
    whatever the sentiments (none at all included): no error is raised. *)
Theorem empty_results_spec (metric : Type)
    (apriori : list (list string) -> list (itemset_row metric))
    (association_rules : list (itemset_row metric) -> list (rule metric))
    (round3 : metric -> metric)
    (transactions : list (list string)) (sentiments : list polarity)
    (Hempty : transactions = [] \/ apriori transactions = []) :
  generate_recommendations apriori association_rules round3
    transactions sentiments = Some [].
Proof.
  unfold generate_recommendations.
  destruct transactions as [|row rows]; [reflexivity|].
  destruct Hempty as [H|H]; [discriminate|]. rewrite H. reflexivity.
Qed.

Lemma empty_results_spec_witness :
  let transactions :=
    [ ["delivery"]; ["packaging"]; ["taste"]; ["quality"]; ["price"];
      ["refund"]; ["app"]; ["support"]; ["burger"]; ["pizza"]; ["fries"] ] in
  (transactions = [] \/ Miner.apriori (1 # 10) transactions = []) /\
  generate_recommendations (Miner.apriori (1 # 10))
    (Miner.association_rules 1) Miner.round3 transactions [] = Some [].
Proof.
  cbv zeta.
  assert (H : Miner.apriori (1 # 10)
                [ ["delivery"]; ["packaging"]; ["taste"]; ["quality"];
                  ["price"]; ["refund"]; ["app"]; ["support"]; ["burger"];
                  ["pizza"]; ["fries"] ] = []) by (vm_compute; reflexivity).
  split; [right; exact H|].
  apply (empty_results_spec Q (Miner.apriori (1 # 10))
           (Miner.association_rules 1) Miner.round3). right. exact H.
Defined.

(** C9 — For the miner of the contract and every transaction list, if the
    support threshold s1 is at most s2 then every frequent itemset found
    at s2 is found at s1, in the same order, so there are no more of them
    at s2 than at s1. *)
Theorem miner_monotone (transactions : list (list string)) (s1 s2 : Q)
    (Hle : (s1 <= s2)%Q) :
  Miner.apriori s2 transactions `sublist_of` Miner.apriori s1 transactions /\
  (forall row, row ∈ Miner.apriori s2 transactions ->
               row ∈ Miner.apriori s1 transactions) /\
  (length (Miner.apriori s2 transactions) <=
   length (Miner.apriori s1 transactions))%nat.
Proof.
  pose proof (apriori_sublist s1 s2 transactions Hle) as H.
  split; [exact H|]. split.
  - intros row Hrow. eapply elem_of_submseteq; [exact Hrow|].
    apply sublist_submseteq, H.
  - apply sublist_length, H.
Qed.

Lemma miner_monotone_witness :
  (1 # 10 <= 3 # 4)%Q /\
  (length (Miner.apriori (3 # 4)
             [["burger"; "fries"]; ["burger"; "sauce"]; ["burger"]]) <=
   length (Miner.apriori (1 # 10)
             [["burger"; "fries"]; ["burger"; "sauce"]; ["burger"]]))%nat.
Proof.
  split; [discriminate|].
  apply (miner_monotone
           [["burger"; "fries"]; ["burger"; "sauce"]; ["burger"]]
           (1 # 10) (3 # 4)).
  discriminate.
Defined.

(** ** Further properties of the extractor *)

Lemma string_app_assoc (a b c : string) :
  ((a ++ b) ++ c = a ++ (b ++ c))%string.
Proof.
  induction a as [|x a IH]; [reflexivity|].
  rewrite !append_cons, IH. reflexivity.
Qed.

Lemma occurs_in_trans (a b c : string) :
  occurs_in a b -> occurs_in b c -> occurs_in a c.
Proof.
  intros [p1 [s1 ->]] [p2 [s2 ->]].
  exists (p2 ++ p1)%string, (s1 ++ s2)%string.
  rewrite !string_app_assoc. reflexivity.
Qed.

Lemma origins_from_ge (lower : string -> string) (i k m : nat)
    (reviews : list (option string)) :
  origins_from lower i reviews !! k = Some m -> (i + k <= m)%nat.
Proof.
  revert i k. induction reviews as [|review reviews IH]; intros i k; simpl;
    [intros H; inversion H|].
  destruct (mentions_tag lower review).
  - destruct k as [|k]; simpl.
    + intros [= <-]. lia.
    + intros H. apply IH in H. lia.
  - intros H. apply IH in H. lia.
Qed.

Lemma filter_all {A : Type} (f : A -> bool) (l : list A) :
  (forall x, x ∈ l -> f x = true) -> List.filter f l = l.
Proof.
  induction l as [|x l IH]; intros H; simpl; [reflexivity|].
  rewrite (H x) by left. rewrite IH; [reflexivity|].
  intros y Hy. apply H. right. exact Hy.
Qed.

Lemma origins_from_all (lower : string -> string) (i : nat)
    (reviews : list (option string)) :
  (forall review, review ∈ reviews -> mentions_tag lower review = true) ->
  origins_from lower i reviews = seq i (length reviews).
Proof.
  revert i. induction reviews as [|review reviews IH]; intros i H; simpl;
    [reflexivity|].
  rewrite (H review) by left. rewrite IH; [reflexivity|].
  intros r Hr. apply H. right. exact Hr.
Qed.

(** X1 — Whatever the reviews, there are at most as many transactions as
    reviews, and every transaction is a non-empty list of tags of the
    vocabulary, in increasing order, without repetition, hence of at
    most sixteen tags. *)
Theorem transactions_well_formed (lower : string -> string)
    (reviews : list (option string)) :
  (length (extract_products_from_reviews lower reviews) <= length reviews)%nat /\
  Forall
    (fun t => t <> [] /\ NoDup t /\ StronglySorted String.le t /\
              t ⊆ product_list /\ (length t <= 16)%nat)
    (extract_products_from_reviews lower reviews).
Proof.
  rewrite extract_eq. split.
  - rewrite length_map. apply List.filter_length_le.
  - apply Forall_forall. intros t Ht.
    apply list_elem_of_In, in_map_iff in Ht. destruct Ht as [review [<- Hr]].
    apply filter_In in Hr. destruct Hr as [_ Hr].
    assert (Hsub : transaction_of lower review ⊆ product_list).
    { intros p Hp. apply transaction_of_elem_of in Hp. tauto. }
    split; [apply mentions_tag_transaction; exact Hr|].
    split; [apply sorted_set_NoDup|]. split; [apply sorted_set_sorted|].
    split; [exact Hsub|].
    change 16%nat with (length product_list).
    apply submseteq_length, NoDup_submseteq;
      [apply sorted_set_NoDup | exact Hsub].
Qed.

(** X2 — The builder works review by review: the transactions of two
    batches put end to end are the transactions of the first followed by
    those of the second, and a review that mentions no tag can be removed
    from a batch without changing the result. *)
Theorem extract_batches (lower : string -> string)
    (pre post : list (option string)) (review : option string) :
  extract_products_from_reviews lower (pre ++ post) =
    extract_products_from_reviews lower pre ++
    extract_products_from_reviews lower post /\
  extract_products_from_reviews lower (pre ++ review :: post) =
    extract_products_from_reviews lower pre ++
    (if mentions_tag lower review then [transaction_of lower review] else [])
    ++ extract_products_from_reviews lower post.
Proof.
  split; [apply extract_app|].
  rewrite extract_app.
  change (review :: post) with ([review] ++ post).
  rewrite (extract_app lower [review] post), (extract_eq lower [review]).
  simpl. destruct (mentions_tag lower review); reflexivity.
Qed.

(** X3 — Adding text never removes a tag: when the lower-cased text of one
    review occurs in the lower-cased text of another, every tag of the
    first is a tag of the second. *)
Theorem tags_monotone (lower : string -> string)
    (review1 review2 : option string)
    (Hocc : occurs_in (lower (or_empty review1)) (lower (or_empty review2))) :
  transaction_of lower review1 ⊆ transaction_of lower review2 /\
  (mentions_tag lower review1 = true -> mentions_tag lower review2 = true).
Proof.
  assert (Hsub : transaction_of lower review1 ⊆ transaction_of lower review2).
  { intros p Hp. apply transaction_of_elem_of in Hp. destruct Hp as [Hv Ho].
    apply transaction_of_elem_of. split; [exact Hv|].
    exact (occurs_in_trans _ _ _ Ho Hocc). }
  split; [exact Hsub|].
  rewrite !mentions_tag_true_iff. intros [p [Hv Ho]]. exists p.
  split; [exact Hv | exact (occurs_in_trans _ _ _ Ho Hocc)].
Qed.

Lemma tags_monotone_witness :
  occurs_in (ascii_lower (or_empty (Some "Fries")))
            (ascii_lower (or_empty (Some "Pizza and FRIES please"))) /\
  transaction_of ascii_lower (Some "Fries") ⊆
  transaction_of ascii_lower (Some "Pizza and FRIES please").
Proof.
  assert (H : occurs_in (ascii_lower (or_empty (Some "Fries")))
                (ascii_lower (or_empty (Some "Pizza and FRIES please")))).
  { exists "pizza and ", " please". reflexivity. }
  split; [exact H|].
  exact (proj1 (tags_monotone ascii_lower (Some "Fries")
                  (Some "Pizza and FRIES please") H)).
Defined.

(** X4 — Matching is by substring, not by word: the tag "app" is found in
    every review whose lower-cased text contains "happy", "disappointed"
    or "appreciate", so every review that the keyword lists reach through
    "not happy" or "disappointed" gives a transaction with the tag
    "app". *)
Theorem app_inside_words (lower : string -> string) (text : string)
    (Hword : occurs_in "happy" (lower text) \/
             occurs_in "disappointed" (lower text) \/
             occurs_in "appreciate" (lower text)) :
  "app" ∈ transaction_of lower (Some text) /\
  mentions_tag lower (Some text) = true /\
  (occurs_in "not happy" (lower text) ->
   any_in negative_keywords (lower text) = true).
Proof.
  assert (Happ : occurs_in "app" (lower text)).
  { destruct Hword as [H|[H|H]]; refine (occurs_in_trans _ _ _ _ H).
    - exists "h", "y". reflexivity.
    - exists "dis", "ointed". reflexivity.
    - exists "", "reciate". reflexivity. }
  assert (Hv : "app" ∈ product_list) by (apply list_elem_of_In; simpl; tauto).
  split; [apply transaction_of_elem_of; split; assumption|].
  split; [apply mentions_tag_true_iff; exists "app"; split; assumption|].
  intros H. apply any_in_true_iff. exists "not happy". split; [|exact H].
  apply list_elem_of_In. simpl. tauto.
Qed.

Lemma app_inside_words_witness :
  (occurs_in "happy" (ascii_lower "Not happy.") \/
   occurs_in "disappointed" (ascii_lower "Not happy.") \/
   occurs_in "appreciate" (ascii_lower "Not happy.")) /\
  "app" ∈ transaction_of ascii_lower (Some "Not happy.").
Proof.
  assert (H : occurs_in "happy" (ascii_lower "Not happy."))
    by (exists "not ", "."; reflexivity).
  split; [left; exact H|].
  exact (proj1 (app_inside_words ascii_lower "Not happy." (or_introl H))).
Defined.

(** ** Further properties of the rule-based composer and its caller *)

Lemma lookup_map {A B : Type} (f : A -> B) (l : list A) (i : nat) :
  map f l !! i = option_map f (l !! i).
Proof.
  revert i. induction l as [|x l IH]; intros [|i]; simpl; auto.
Qed.

(** In the frame of one row per review, the row paired with position [k]
    is the row of review [k]. *)
Lemma sentiment_at_review (polarity_scores : string -> polarity)
    (reviews : list string) (k : nat) (review : string) :
  reviews !! k = Some review ->
  sentiment_at (analyze_sentiments polarity_scores reviews) (Z.of_nat k) =
  Some (polarity_scores review).
Proof.
  intros Hk. unfold analyze_sentiments.
  assert (Hlt : (k < length reviews)%nat) by (eapply lookup_lt_Some; exact Hk).
  assert (Hne : map polarity_scores reviews <> [])
    by (destruct reviews; [inversion Hk | discriminate]).
  destruct (sentiment_at_clamped (map polarity_scores reviews) k Hne) as [E _].
  rewrite E, length_map.
  replace (Nat.min k (length reviews - 1)) with k by lia.
  rewrite lookup_map, Hk. reflexivity.
Qed.

(** X5 — In the route, the frame of sentiments has one row per review and
    the transactions are at most as many, so the clamp of the index never
    acts: transaction k is paired with the sentiment of review k, while it
    was built from the review at position j of the reviews that mention a
    tag, and k <= j. *)
Theorem pipeline_pairs_by_position (lower : string -> string)
    (polarity_scores : string -> polarity) (reviews : list string)
    (k : nat) (t : list string)
    (Hk : extract_products_from_reviews lower (map Some reviews) !! k
          = Some t) :
  exists review_k j review_j,
    reviews !! k = Some review_k /\
    sentiment_at (analyze_sentiments polarity_scores reviews) (Z.of_nat k)
      = Some (polarity_scores review_k) /\
    (k <= j)%nat /\
    reviews !! j = Some review_j /\
    origins_from lower 0 (map Some reviews) !! k = Some j /\
    t = transaction_of lower (Some review_j).
Proof.
  destruct (origins_from_lookup lower (map Some reviews) 0 k t Hk)
    as (j & r & Ho & Hj & _ & Ht).
  simpl in Ho. apply origins_from_ge in Ho as Hge. simpl in Hge.
  rewrite lookup_map in Hj.
  destruct (reviews !! j) as [review_j|] eqn:Ej; [|discriminate].
  injection Hj as <-.
  assert (Hlt : (k < length reviews)%nat).
  { apply lookup_lt_Some in Ej. lia. }
  destruct (lookup_lt_is_Some_2 reviews k Hlt) as [review_k Ek].
  exists review_k, j, review_j.
  split; [exact Ek|].
  split; [apply sentiment_at_review; exact Ek|]. auto.
Qed.

Lemma pipeline_pairs_by_position_witness :
  extract_products_from_reviews ascii_lower
    (map Some ["no tags here"; "love the pizza"]) !! 0%nat = Some ["pizza"] /\
  exists review_k j review_j,
    ["no tags here"; "love the pizza"] !! 0%nat = Some review_k /\
    sentiment_at
      (analyze_sentiments (fun _ => scored 0)
         ["no tags here"; "love the pizza"]) (Z.of_nat 0)
      = Some ((fun _ => scored 0) review_k) /\
    (0 <= j)%nat /\
    ["no tags here"; "love the pizza"] !! j = Some review_j /\
    origins_from ascii_lower 0 (map Some ["no tags here"; "love the pizza"])
      !! 0%nat = Some j /\
    ["pizza"] = transaction_of ascii_lower (Some review_j).
Proof.
  assert (H : extract_products_from_reviews ascii_lower
                (map Some ["no tags here"; "love the pizza"]) !! 0%nat
              = Some ["pizza"]) by (vm_compute; reflexivity).
  split; [exact H|].
  exact (pipeline_pairs_by_position ascii_lower (fun _ => scored 0)
           ["no tags here"; "love the pizza"] 0 ["pizza"] H).
Defined.

(** X6 — When every review mentions a tag, nothing is dropped: there is
    one transaction per review, transaction k is built from review k, and
    it is paired with the sentiment of review k. *)
Theorem pipeline_aligned_when_nothing_dropped (lower : string -> string)
    (polarity_scores : string -> polarity) (reviews : list string)
    (Hall : forall review, review ∈ reviews ->
                           mentions_tag lower (Some review) = true) :
  extract_products_from_reviews lower (map Some reviews) =
    map (fun review => transaction_of lower (Some review)) reviews /\
  origins_from lower 0 (map Some reviews) = seq 0 (length reviews) /\
  forall (k : nat) review,
    reviews !! k = Some review ->
    extract_products_from_reviews lower (map Some reviews) !! k =
      Some (transaction_of lower (Some review)) /\
    sentiment_at (analyze_sentiments polarity_scores reviews) (Z.of_nat k) =
      Some (polarity_scores review).
Proof.
  assert (Hall' : forall r, r ∈ map Some reviews ->
                            mentions_tag lower r = true).
  { intros r Hr. apply list_elem_of_In, in_map_iff in Hr.
    destruct Hr as [review [<- Hin]]. apply Hall, list_elem_of_In, Hin. }
  assert (Hex : extract_products_from_reviews lower (map Some reviews) =
                map (fun review => transaction_of lower (Some review)) reviews).
  { rewrite extract_eq, (filter_all _ _ Hall'), map_map. reflexivity. }
  split; [exact Hex|]. split.
  - rewrite (origins_from_all lower 0 _ Hall'), length_map. reflexivity.
  - intros k review Hk. split.
    + rewrite Hex, lookup_map, Hk. reflexivity.
    + apply sentiment_at_review. exact Hk.
Qed.

Lemma demo_texts_mention_tags (review : string) :
  review ∈ demo_texts -> mentions_tag ascii_lower (Some review) = true.
Proof.
  intros H. apply list_elem_of_In in H. simpl in H.
  repeat (destruct H as [<-|H]; [vm_compute; reflexivity|]). destruct H.
Qed.

Lemma pipeline_aligned_when_nothing_dropped_witness :
  (forall review, review ∈ demo_texts ->
                  mentions_tag ascii_lower (Some review) = true) /\
  origins_from ascii_lower 0 (map Some demo_texts) =
    seq 0 (length demo_texts).
Proof.
  split; [exact demo_texts_mention_tags|].
  exact (proj1 (proj2 (pipeline_aligned_when_nothing_dropped ascii_lower
                         (fun _ => scored 0) demo_texts
                         demo_texts_mention_tags))).
Defined.

Section ComposerMore.
Variable metric : Type.
Variable round3 : metric -> metric.

(** Without any row of sentiments the outer loop fails at the first
    non-empty row, and returns its accumulator when there is none. *)
Lemma transactions_loop_no_sentiments (rules : list (rule metric))
    (rows : list (list string)) :
  forall (idx : Z) (acc : list (recommendation metric)),
    (Forall (fun row => row = []) rows /\
     transactions_loop round3 rules [] idx rows acc = Some acc) \/
    ((exists row, row ∈ rows /\ row <> []) /\
     transactions_loop round3 rules [] idx rows acc = None).
Proof.
  induction rows as [|row rows IH]; intros idx acc; simpl.
  - left. split; [constructor | reflexivity].
  - destruct row as [|p row]; simpl.
    + destruct (IH (idx + 1)%Z acc) as [[Hall Hs]|[[r [Hr Hne]] Hn]].
      * left. split; [constructor; [reflexivity | exact Hall] | exact Hs].
      * right. split; [|exact Hn]. exists r. split; [right; exact Hr | exact Hne].
    + rewrite sentiment_at_nil. right. split; [|reflexivity].
      exists (p :: row). split; [left | discriminate].
Qed.

Lemma transactions_loop_length (rules : list (rule metric))
    (sentiments : list polarity) (rows : list (list string)) :
  forall (idx : Z) (acc recs : list (recommendation metric)),
    transactions_loop round3 rules sentiments idx rows acc = Some recs ->
    (length recs <= length acc + length rows * length rules)%nat.
Proof.
  induction rows as [|row rows IH]; intros idx acc recs; simpl.
  - intros [= <-]. lia.
  - destruct (length row =? 0)%nat.
    + intros H. apply IH in H. lia.
    + destruct (sentiment_at sentiments idx) as [s|]; [|discriminate].
      intros H. apply IH in H. rewrite rules_loop_eq in H.
      rewrite length_app, length_map in H.
      pose proof (List.filter_length_le
                    (fun r => all_in_row (antecedents r) row) rules).
      lia.
Qed.

End ComposerMore.

(** X7 — Once the rules are mined, the loop over the transactions (lines
    91 to 120) raises, with the [IndexError] of [iloc] at line 95, exactly
    when the frame of sentiments has no row and some transaction is not
    empty; with no row of sentiments and only empty transactions it
    returns the empty list, and with at least one row of sentiments it
    always returns a list. *)
Theorem index_error_iff (metric : Type) (round3 : metric -> metric)
    (rules : list (rule metric))
    (transactions : list (list string)) (sentiments : list polarity) :
  (transactions_loop round3 rules sentiments 0 transactions [] = None <->
   sentiments = [] /\ exists row, row ∈ transactions /\ row <> []) /\
  (Forall (fun row => row = []) transactions ->
   transactions_loop round3 rules [] 0 transactions [] = Some []) /\
  (sentiments <> [] ->
   is_Some (transactions_loop round3 rules sentiments 0 transactions [])).
Proof.
  assert (Htotal : sentiments <> [] ->
            is_Some (transactions_loop round3 rules sentiments 0
                       transactions [])).
  { intros Hne.
    apply (transactions_loop_total metric round3 rules sentiments
             transactions Hne 0%nat []). }
  split; [|split; [|exact Htotal]].
  - split.
    + intros Hnone. destruct sentiments as [|s sentiments].
      * split; [reflexivity|].
        destruct (transactions_loop_no_sentiments metric round3 rules
                    transactions 0%Z []) as [[_ Hs]|[Hex _]];
          [congruence | exact Hex].
      * destruct Htotal as [recs Hs]; [discriminate | congruence].
    + intros (-> & row & Hrow & Hne).
      destruct (transactions_loop_no_sentiments metric round3 rules
                  transactions 0%Z []) as [[Hall _]|[_ Hn]]; [|exact Hn].
      rewrite Forall_forall in Hall. elim Hne. apply Hall. exact Hrow.
  - intros Hall.
    destruct (transactions_loop_no_sentiments metric round3 rules
                transactions 0%Z []) as [[_ Hs]|[[row [Hrow Hne]] _]];
      [exact Hs|].
    rewrite Forall_forall in Hall. elim Hne. apply Hall. exact Hrow.
Qed.

(** X8 — The two lists the route builds never make
    [generate_recommendations] fail: for every list of stored texts, empty
    or not, and whatever the scorer and the miner return, the product
    recommendations are a list. *)
Theorem pipeline_never_raises (metric : Type) (lower : string -> string)
    (polarity_scores : string -> polarity)
    (apriori : list (list string) -> list (itemset_row metric))
    (association_rules : list (itemset_row metric) -> list (rule metric))
    (round3 : metric -> metric) (reviews : list string) :
  is_Some (product_recommendations lower polarity_scores apriori
             association_rules round3 reviews) /\
  (extract_products_from_reviews lower (map Some reviews) = [] ->
   product_recommendations lower polarity_scores apriori
     association_rules round3 reviews = Some []).
Proof.
  unfold product_recommendations. split.
  - destruct reviews as [|review reviews]; [eexists; reflexivity|].
    apply generate_total. discriminate.
  - intros ->. reflexivity.
Qed.

(** X9 — With at least one row of sentiments, a position inside the frame
    reads the row at that position, and every position from the last row
    on reads the last row. *)
Theorem sentiment_clamped_to_last (sentiments : list polarity) (k : nat)
    (Hne : sentiments <> []) :
  ((k < length sentiments)%nat ->
   sentiment_at sentiments (Z.of_nat k) = sentiments !! k) /\
  ((length sentiments - 1 <= k)%nat ->
   sentiment_at sentiments (Z.of_nat k) = last sentiments).
Proof.
  destruct (sentiment_at_clamped sentiments k Hne) as [E _]. rewrite E.
  split; intros H.
  - replace (Nat.min k (length sentiments - 1)) with k by lia. reflexivity.
  - replace (Nat.min k (length sentiments - 1))
      with (pred (length sentiments)) by lia.
    symmetry. apply last_lookup.
Qed.

Lemma sentiment_clamped_to_last_witness :
  [scored 0; scored 0.6] <> [] /\
  ((length [scored 0; scored 0.6] - 1 <= 5)%nat ->
   sentiment_at [scored 0; scored 0.6] (Z.of_nat 5) =
   last [scored 0; scored 0.6]).
Proof.
  split; [discriminate|].
  apply (sentiment_clamped_to_last [scored 0; scored 0.6] 5). discriminate.
Defined.

(** X10 — With at least one row of sentiments, at least one transaction
    and at least one frequent itemset, the result is, for each transaction
    in turn, the recommendations of the rules whose antecedents all belong
    to it, in the order of the rules, phrased by the sentiment paired with
    its position; an empty transaction contributes nothing. *)
Theorem generate_recommendations_closed (metric : Type)
    (apriori : list (list string) -> list (itemset_row metric))
    (association_rules : list (itemset_row metric) -> list (rule metric))
    (round3 : metric -> metric)
    (transactions : list (list string)) (sentiments : list polarity)
    (Hsentiments : sentiments <> []) (Htransactions : transactions <> [])
    (Hfrequent : apriori transactions <> []) :
  generate_recommendations apriori association_rules round3
    transactions sentiments =
  Some (concat (imap
    (fun k row =>
       match row, sentiment_at sentiments (Z.of_nat k) with
       | _ :: _, Some sentiment =>
           map (recommend_rule round3 (0.05 <? compound sentiment)%float)
               (List.filter (fun r => all_in_row (antecedents r) row)
                  (association_rules (apriori transactions)))
       | _, _ => []
       end) transactions)).
Proof.
  unfold generate_recommendations.
  destruct transactions as [|row rows]; [congruence|].
  destruct (apriori (row :: rows)) as [|i is_] eqn:Ha; [congruence|].
  apply (transactions_loop_closed metric round3 (association_rules (i :: is_))
           sentiments (row :: rows) Hsentiments 0%nat []).
Qed.

Lemma generate_recommendations_closed_witness :
  [scored 0; scored 0.6] <> [] /\
  [["burger"; "fries"]; ["burger"; "fries"]] <> [] /\
  Miner.apriori (1 # 10) [["burger"; "fries"]; ["burger"; "fries"]] <> [] /\
  option_map (@length _)
    (generate_recommendations (Miner.apriori (1 # 10))
       (Miner.association_rules 1) Miner.round3
       [["burger"; "fries"]; ["burger"; "fries"]] [scored 0; scored 0.6])
  = Some 4%nat.
Proof.
  assert (H : Miner.apriori (1 # 10)
                [["burger"; "fries"]; ["burger"; "fries"]] <> [])
    by (vm_compute; discriminate).
  split; [discriminate|]. split; [discriminate|]. split; [exact H|].
  rewrite (generate_recommendations_closed Q (Miner.apriori (1 # 10))
             (Miner.association_rules 1) Miner.round3
             [["burger"; "fries"]; ["burger"; "fries"]]
             [scored 0; scored 0.6]); [| discriminate | discriminate | exact H].
  vm_compute. reflexivity.
Defined.

(** X11 — The result never has more recommendations than transactions
    times mined rules, and it has none when the miner returns no rule. *)
Theorem recommendations_bounded (metric : Type)
    (apriori : list (list string) -> list (itemset_row metric))
    (association_rules : list (itemset_row metric) -> list (rule metric))
    (round3 : metric -> metric)
    (transactions : list (list string)) (sentiments : list polarity)
    (recs : list (recommendation metric))
    (Hgen : generate_recommendations apriori association_rules round3
              transactions sentiments = Some recs) :
  (length recs <=
   length transactions *
   length (association_rules (apriori transactions)))%nat /\
  (association_rules (apriori transactions) = [] -> recs = []).
Proof.
  assert (Hlen : (length recs <=
                  length transactions *
                  length (association_rules (apriori transactions)))%nat).
  { unfold generate_recommendations in Hgen.
    destruct transactions as [|row rows]; [injection Hgen as <-; simpl; lia|].
    destruct (apriori (row :: rows)) as [|i is_] eqn:Ha;
      [injection Hgen as <-; simpl; lia|].
    apply transactions_loop_length in Hgen. simpl in *. lia. }
  split; [exact Hlen|].
  intros Hnil. rewrite Hnil in Hlen. simpl in Hlen.
  destruct recs; [reflexivity | simpl in Hlen; lia].
Qed.

Lemma recommendations_bounded_witness :
  generate_recommendations (Miner.apriori (1 # 10))
    (Miner.association_rules 1) Miner.round3
    [["burger"]; ["fries"]] [scored 0] = Some [] /\
  (length (@nil (recommendation Q)) <=
   length [["burger"]; ["fries"]] *
   length (Miner.association_rules 1
             (Miner.apriori (1 # 10) [["burger"]; ["fries"]])))%nat.
Proof.
  assert (H : generate_recommendations (Miner.apriori (1 # 10))
                (Miner.association_rules 1) Miner.round3
                [["burger"]; ["fries"]] [scored 0] = Some [])
    by (vm_compute; reflexivity).
  split; [exact H|].
  exact (proj1 (recommendations_bounded Q (Miner.apriori (1 # 10))
                  (Miner.association_rules 1) Miner.round3
                  [["burger"]; ["fries"]] [scored 0] [] H)).
Defined.

(** ** Further properties of the keyword composer *)

(** No string belongs to two of the pools, and the fallback belongs to
    none. *)
Lemma pools_disjoint (r : string) :
  (r ∈ positive_recommendations ->
   (r ∉ negative_recommendations) /\ (r ∉ neutral_recommendations) /\
   r <> fallback_recommendation) /\
  (r ∈ negative_recommendations ->
   (r ∉ neutral_recommendations) /\ r <> fallback_recommendation) /\
  (r ∈ neutral_recommendations -> r <> fallback_recommendation).
Proof.
  rewrite !list_elem_of_In.
  split; [|split]; intros H; simpl in H;
    repeat (destruct H as [<-|H];
            [repeat split; try rewrite list_elem_of_In;
             try (intros Hin; simpl in Hin; intuition discriminate);
             discriminate|]);
    destruct H.
Qed.

Section KeywordMore.
Variable lower : string -> string.
Variable rng : Type.
Variable randbelow : nat -> rng -> nat * rng.

Lemma generate_simple_app (pre post : list (option string)) (g : rng) :
  generate_simple_recommendations lower rng randbelow (pre ++ post) g =
  (fst (generate_simple_recommendations lower rng randbelow pre g) ++
   fst (generate_simple_recommendations lower rng randbelow post
          (snd (generate_simple_recommendations lower rng randbelow pre g))),
   snd (generate_simple_recommendations lower rng randbelow post
          (snd (generate_simple_recommendations lower rng randbelow pre g)))).
Proof.
  unfold generate_simple_recommendations.
  rewrite simple_loop_app, simple_loop_acc. reflexivity.
Qed.

Lemma generate_simple_no_keyword (reviews : list (option string)) (g : rng) :
  (forall review, review ∈ reviews ->
     any_in positive_keywords (lower (or_empty review)) = false /\
     any_in negative_keywords (lower (or_empty review)) = false /\
     any_in neutral_keywords (lower (or_empty review)) = false) ->
  generate_simple_recommendations lower rng randbelow reviews g =
  (replicate (length reviews) fallback_recommendation, g).
Proof.
  unfold generate_simple_recommendations. revert g.
  induction reviews as [|review reviews IH]; intros g H; [reflexivity|].
  cbn [simple_loop]. unfold recommend.
  destruct (H review) as (H1 & H2 & H3); [left|]. rewrite H1, H2, H3.
  rewrite simple_loop_acc, IH; [reflexivity|].
  intros r Hr. apply H. right. exact Hr.
Qed.
End KeywordMore.

(** X12 — Two keywords can never decide the class of a review, because a
    keyword of an earlier list occurs inside them: a review whose
    lower-cased text contains "don't like" contains "like" and gets a
    string of the positive pool, never of the negative one, and a review
    that contains "not bad" contains "bad" and never gets a string of the
    neutral pool. *)
Theorem shadowed_keywords (lower : string -> string) (rng : Type)
    (randbelow : nat -> rng -> nat * rng)
    (randbelow_lt : forall n g, (0 < n)%nat -> (fst (randbelow n g) < n)%nat)
    (reviews : list (option string)) (g : rng) :
  Forall2
    (fun review r =>
       (occurs_in "don't like" (lower (or_empty review)) ->
        r ∈ positive_recommendations /\ (r ∉ negative_recommendations)) /\
       (occurs_in "not bad" (lower (or_empty review)) ->
        (r ∈ positive_recommendations \/ r ∈ negative_recommendations) /\
        (r ∉ neutral_recommendations)))
    reviews
    (fst (generate_simple_recommendations lower rng randbelow reviews g)).
Proof.
  apply simple_loop_pointwise. intros review g'.
  pose proof (recommend_classes lower rng randbelow randbelow_lt review g')
    as H. cbv zeta in H.
  pose proof (pools_disjoint (fst (recommend lower rng randbelow review g')))
    as (D1 & D2 & D3).
  split.
  - intros Hocc.
    assert (Hpos : any_in positive_keywords (lower (or_empty review)) = true).
    { apply any_in_true_iff. exists "like".
      split; [apply list_elem_of_In; simpl; tauto|].
      refine (occurs_in_trans _ _ _ _ Hocc). exists "don't ", "". reflexivity. }
    rewrite Hpos in H. split; [exact H | apply (D1 H)].
  - intros Hocc.
    assert (Hneg : any_in negative_keywords (lower (or_empty review)) = true).
    { apply any_in_true_iff. exists "bad".
      split; [apply list_elem_of_In; simpl; tauto|].
      refine (occurs_in_trans _ _ _ _ Hocc). exists "not ", "". reflexivity. }
    rewrite Hneg in H.
    destruct (any_in positive_keywords (lower (or_empty review))).
    + split; [left; exact H | apply (D1 H)].
    + split; [right; exact H | apply (D2 H)].
Qed.

Lemma shadowed_keywords_witness :
  Forall2
    (fun review r =>
       (occurs_in "don't like" (ascii_lower (or_empty review)) ->
        r ∈ positive_recommendations /\ (r ∉ negative_recommendations)) /\
       (occurs_in "not bad" (ascii_lower (or_empty review)) ->
        (r ∈ positive_recommendations \/ r ∈ negative_recommendations) /\
        (r ∉ neutral_recommendations)))
    [Some "I don't like it"; Some "Not bad at all"]
    (fst (generate_simple_recommendations ascii_lower nat counter_randbelow
            [Some "I don't like it"; Some "Not bad at all"] 3%nat)).
Proof.
  exact (shadowed_keywords ascii_lower nat counter_randbelow
           counter_randbelow_lt
           [Some "I don't like it"; Some "Not bad at all"] 3%nat).
Defined.

(** X13 — The class of a review can be read back from the string returned
    for it: the string is in the positive pool exactly when a positive
    keyword occurs in the lower-cased text, in the negative pool exactly
    when no positive but a negative keyword occurs, in the neutral pool
    exactly when only a neutral keyword occurs, and it is the fallback
    exactly when no keyword occurs. *)
Theorem class_read_back (lower : string -> string) (rng : Type)
    (randbelow : nat -> rng -> nat * rng)
    (randbelow_lt : forall n g, (0 < n)%nat -> (fst (randbelow n g) < n)%nat)
    (reviews : list (option string)) (g : rng) :
  Forall2
    (fun review r =>
       let content := lower (or_empty review) in
       (r ∈ positive_recommendations <->
        any_in positive_keywords content = true) /\
       (r ∈ negative_recommendations <->
        any_in positive_keywords content = false /\
        any_in negative_keywords content = true) /\
       (r ∈ neutral_recommendations <->
        any_in positive_keywords content = false /\
        any_in negative_keywords content = false /\
        any_in neutral_keywords content = true) /\
       (r = fallback_recommendation <->
        any_in positive_keywords content = false /\
        any_in negative_keywords content = false /\
        any_in neutral_keywords content = false))
    reviews
    (fst (generate_simple_recommendations lower rng randbelow reviews g)).
Proof.
  apply simple_loop_pointwise. intros review g'.
  pose proof (recommend_classes lower rng randbelow randbelow_lt review g')
    as H. cbv zeta in *.
  pose proof (pools_disjoint (fst (recommend lower rng randbelow review g')))
    as (D1 & D2 & D3).
  destruct (any_in positive_keywords (lower (or_empty review)));
    [|destruct (any_in negative_keywords (lower (or_empty review)));
      [|destruct (any_in neutral_keywords (lower (or_empty review)))]];
    repeat split; intros; try discriminate; try tauto; try congruence;
    try (exfalso; intuition congruence).
Qed.

Lemma class_read_back_witness :
  Forall2
    (fun review r =>
       let content := ascii_lower (or_empty review) in
       (r ∈ positive_recommendations <->
        any_in positive_keywords content = true) /\
       (r ∈ negative_recommendations <->
        any_in positive_keywords content = false /\
        any_in negative_keywords content = true) /\
       (r ∈ neutral_recommendations <->
        any_in positive_keywords content = false /\
        any_in negative_keywords content = false /\
        any_in neutral_keywords content = true) /\
       (r = fallback_recommendation <->
        any_in positive_keywords content = false /\
        any_in negative_keywords content = false /\
        any_in neutral_keywords content = false))
    [Some "Awful service"; None]
    (fst (generate_simple_recommendations ascii_lower nat counter_randbelow
            [Some "Awful service"; None] 1%nat)).
Proof.
  exact (class_read_back ascii_lower nat counter_randbelow
           counter_randbelow_lt [Some "Awful service"; None] 1%nat).
Defined.

(** X14 — When no keyword of the three lists occurs in any review, the
    result does not depend on chance: every review gets the fallback and
    the generator is left in the state it was in. *)
Theorem no_keyword_no_draw (lower : string -> string) (rng : Type)
    (randbelow : nat -> rng -> nat * rng)
    (reviews : list (option string)) (g : rng)
    (Hnone : forall review, review ∈ reviews ->
       any_in positive_keywords (lower (or_empty review)) = false /\
       any_in negative_keywords (lower (or_empty review)) = false /\
       any_in neutral_keywords (lower (or_empty review)) = false) :
  generate_simple_recommendations lower rng randbelow reviews g =
  (replicate (length reviews) fallback_recommendation, g).
Proof. apply generate_simple_no_keyword. exact Hnone. Qed.

Lemma no_keyword_no_draw_witness :
  (forall review, review ∈ [Some "Arrived on Monday"; None] ->
     any_in positive_keywords (ascii_lower (or_empty review)) = false /\
     any_in negative_keywords (ascii_lower (or_empty review)) = false /\
     any_in neutral_keywords (ascii_lower (or_empty review)) = false) /\
  generate_simple_recommendations ascii_lower nat counter_randbelow
    [Some "Arrived on Monday"; None] 4%nat =
  (replicate 2 fallback_recommendation, 4%nat).
Proof.
  assert (H : forall review, review ∈ [Some "Arrived on Monday"; None] ->
     any_in positive_keywords (ascii_lower (or_empty review)) = false /\
     any_in negative_keywords (ascii_lower (or_empty review)) = false /\
     any_in neutral_keywords (ascii_lower (or_empty review)) = false).
  { intros review Hr. apply list_elem_of_In in Hr. simpl in Hr.
    destruct Hr as [<-|[<-|[]]]; vm_compute; auto. }
  split; [exact H|].
  exact (no_keyword_no_draw ascii_lower nat counter_randbelow
           [Some "Arrived on Monday"; None] 4%nat H).
Defined.

(** X15 — The composer threads the generator through the reviews in
    order: the result for two batches put end to end is the result for the
    first, followed by the result for the second started in the generator
    state the first one left. *)
Theorem simple_recommendations_batches (lower : string -> string)
    (rng : Type) (randbelow : nat -> rng -> nat * rng)
    (pre post : list (option string)) (g : rng) :
  let first := generate_simple_recommendations lower rng randbelow pre g in
  let second :=
    generate_simple_recommendations lower rng randbelow post (snd first) in
  generate_simple_recommendations lower rng randbelow (pre ++ post) g =
    (fst first ++ fst second, snd second) /\
  length (fst (generate_simple_recommendations lower rng randbelow
                 (pre ++ post) g)) = (length pre + length post)%nat.
Proof.
  cbv zeta. split; [apply generate_simple_app|].
  unfold generate_simple_recommendations.
  rewrite simple_loop_length, length_app. reflexivity.
Qed.

(** ** Further properties of the labels and their counts *)

Lemma count_occ_three (labels : list string) (a b c : string) :
  a <> b -> a <> c -> b <> c ->
  (forall l, l ∈ labels -> l = a \/ l = b \/ l = c) ->
  (count_occ string_dec labels a + count_occ string_dec labels b +
   count_occ string_dec labels c = length labels)%nat.
Proof.
  intros Hab Hac Hbc. induction labels as [|l labels IH]; intros H;
    [reflexivity|].
  cbn [count_occ length].
  assert (IH' := IH (fun x Hx => H x (list_elem_of_further _ _ _ Hx))).
  assert (Hl : l = a \/ l = b \/ l = c) by (apply H; left).
  destruct Hl as [-> | [-> | ->]];
    repeat (destruct (string_dec _ _); try congruence); lia.
Qed.

(** X16 — The three counts add up to the number of stored rows: every row
    is counted under exactly one of the three labels, whether its score
    is present or not. *)
Theorem counts_sum_to_rows (reviews : list Review) :
  exists positive neutral negative : nat,
    sentiment_counts reviews =
      [("Positive", positive); ("Neutral", neutral); ("Negative", negative)] /\
    (positive + neutral + negative = length reviews)%nat.
Proof.
  eexists _, _, _. split.
  - unfold sentiment_counts, fillna, reindex. simpl.
    rewrite !value_counts_lookup. reflexivity.
  - rewrite <- (length_map (fun r => label (sentiment_score r)) reviews).
    apply count_occ_three; try discriminate.
    intros l Hl. apply list_elem_of_In, in_map_iff in Hl.
    destruct Hl as [r [<- _]]. apply label_cases.
Qed.

(** X17 — The composer and the chart split the scores differently: a
    recommendation is labelled Positive exactly when the chart labels the
    same score Positive, and every score that the chart labels Neutral or
    Negative gives a recommendation labelled Negative. *)
Theorem composer_label_against_chart_label (metric : Type)
    (round3 : metric -> metric) (r : rule metric) (s : float) :
  (rec_sentiment (recommend_rule round3 (0.05 <? s)%float r) = "Positive" <->
   label (Some s) = "Positive") /\
  (label (Some s) = "Neutral" \/ label (Some s) = "Negative" ->
   rec_sentiment (recommend_rule round3 (0.05 <? s)%float r) = "Negative").
Proof.
  unfold recommend_rule, label.
  destruct (0.05 <? s)%float; simpl.
  - split; [tauto | intros [H|H]; discriminate H].
  - destruct (s <? -0.05)%float; split; try tauto; split; discriminate.
Qed.

(** X18 — [value_counts] has an entry for a label exactly when the label
    occurs, and the entry is the number of its occurrences, never zero;
    [reindex] followed by [fillna] turns a missing entry into zero. *)
Theorem value_counts_entries (labels : list string) (l : string) :
  (value_counts labels !! l = None <-> l ∉ labels) /\
  (forall n, value_counts labels !! l = Some n ->
             n = count_occ string_dec labels l /\ (1 <= n)%nat) /\
  fillna 0 (reindex [l] (value_counts labels)) =
    [(l, count_occ string_dec labels l)].
Proof.
  split; [apply value_counts_absent|]. split.
  - intros n Hn. pose proof (value_counts_lookup labels l) as H.
    rewrite Hn in H. simpl in H. split; [exact H|].
    destruct (decide (l ∈ labels)) as [Hin|Hout].
    + apply list_elem_of_In, (count_occ_In string_dec) in Hin. lia.
    + apply value_counts_absent in Hout. congruence.
  - unfold fillna, reindex. simpl. rewrite value_counts_lookup. reflexivity.
Qed.

(** ** Properties of the routes *)

Section RouteFacts.
Variable metric : Type.
Variable lower : string -> string.
Variable strip : string -> string.
Variable polarity_scores : string -> polarity.
Variable apriori : list (list string) -> list (itemset_row metric).
Variable association_rules : list (itemset_row metric) -> list (rule metric).
Variable round3 : metric -> metric.
Variable rng : Type.
Variable randbelow : nat -> rng -> nat * rng.
Variable next_id : list Review -> Z.
Variable utcnow : list Review -> Z.

Local Abbreviation step' :=
  (step metric strip polarity_scores next_id utcnow).
Local Abbreviation run' :=
  (run metric strip polarity_scores next_id utcnow).
Local Abbreviation scored_row :=
  (fun row : Review =>
     content row <> "" /\
     sentiment_score row =
       Some (compound (polarity_scores (content row)))).

Lemma seed_fold_spec (texts : list string) (db : list Review) :
  exists rows,
    fold_left
      (fun db t => db_add next_id utcnow db t (compound (polarity_scores t)))
      texts db = db ++ rows /\
    map content rows = texts /\
    Forall (fun row => sentiment_score row =
                       Some (compound (polarity_scores (content row)))) rows.
Proof.
  revert db. induction texts as [|t texts IH]; intros db; simpl.
  - exists []. rewrite app_nil_r. auto.
  - destruct (IH (db_add next_id utcnow db t (compound (polarity_scores t))))
      as (rows & E & Hc & Hs).
    exists ({| id := next_id db; content := t;
               sentiment_score := Some (compound (polarity_scores t));
               created_at := utcnow db |} :: rows).
    split; [rewrite E; unfold db_add; rewrite <- app_assoc; reflexivity|].
    simpl. rewrite Hc.
    split; [reflexivity|]. constructor; [reflexivity | exact Hs].
Qed.

(** What a request does to the store: it keeps the rows it finds and
    appends rows that satisfy [scored_row]. *)
Lemma step_appends (db : list Review) (r : request) :
  exists rows,
    step' db r = db ++ rows /\ Forall scored_row rows /\
    match r with
    | GiveReview _ _ => (length rows <= 1)%nat
    | SeedDemo => length rows = 6%nat
    | _ => rows = []
    end.
Proof.
  destruct r as [post form_review| | |]; simpl.
  - unfold give_review. destruct post.
    + destruct (strip (or_empty form_review)) as [|c text] eqn:E; simpl.
      * exists []. rewrite app_nil_r. auto.
      * eexists. split; [reflexivity|]. split; [|simpl; lia].
        constructor; [|constructor]. simpl. split; [discriminate | reflexivity].
    + exists []. rewrite app_nil_r. auto.
  - destruct (seed_fold_spec demo_texts db) as (rows & E & Hc & Hs).
    exists rows. split; [exact E|]. split.
    + apply Forall_forall. intros row Hrow. split.
      * assert (Hin : content row ∈ demo_texts).
        { rewrite <- Hc. apply list_elem_of_In, in_map, list_elem_of_In, Hrow. }
        apply list_elem_of_In in Hin. simpl in Hin.
        intros Hempty. rewrite Hempty in Hin.
        repeat (destruct Hin as [Hin|Hin]; [discriminate Hin|]). exact Hin.
      * rewrite Forall_forall in Hs. apply Hs, Hrow.
    + rewrite <- (length_map content), Hc. reflexivity.
  - exists []. rewrite app_nil_r. auto.
  - exists []. rewrite app_nil_r. auto.
Qed.

Lemma fold_step_invariant (requests : list request) (db : list Review) :
  Forall scored_row db ->
  Forall scored_row (fold_left step' requests db) /\
  db `prefix_of` fold_left step' requests db.
Proof.
  revert db. induction requests as [|r requests IH]; intros db Hdb; simpl.
  - split; [exact Hdb | reflexivity].
  - destruct (step_appends db r) as (rows & E & Hrows & _).
    destruct (IH (step' db r)) as [Hinv Hpre].
    + rewrite E. apply Forall_app. split; assumption.
    + split; [exact Hinv|]. etransitivity; [|exact Hpre].
      rewrite E. apply prefix_app_r. reflexivity.
Qed.

(** X19 — Whatever requests have been served since the store was empty,
    every stored row has a non-empty text and carries the compound score
    of the scorer on that text; no row is stored without a score. *)
Theorem stored_rows_scored (requests : list request) :
  Forall
    (fun row =>
       content row <> "" /\
       sentiment_score row =
         Some (compound (polarity_scores (content row))))
    (run' requests).
Proof.
  apply (fold_step_invariant requests []). constructor.
Qed.

(** X20 — The store only grows at its end: the rows present after some
    requests are still there, unchanged and in the same order, after any
    further requests. A request to [/give_review] adds at most one row,
    [/seed_demo] adds six, and the other two routes add none. *)
Theorem store_only_grows (requests more : list request) (r : request) :
  run' requests `prefix_of` run' (requests ++ more) /\
  exists rows,
    run' (requests ++ [r]) = run' requests ++ rows /\
    match r with
    | GiveReview _ _ => (length rows <= 1)%nat
    | SeedDemo => length rows = 6%nat
    | _ => rows = []
    end.
Proof.
  unfold run. rewrite !fold_left_app. split.
  - apply fold_step_invariant. apply (fold_step_invariant requests []).
    constructor.
  - simpl. destruct (step_appends (fold_left step' requests []) r)
      as (rows & E & _ & Hlen).
    exists rows. split; assumption.
Qed.

(** X21 — On a store with at least one row, [/get_recommendations] calls
    no [flash] and returns the page with the product recommendations of
    the stored texts and one keyword recommendation per stored row,
    without raising, and [/charts] returns the page with the two file
    names. On an empty store both routes call [flash], which raises
    [RuntimeError] because the application sets no secret key; with a
    non-empty key [flash] returns and the reply is the redirection. *)
Theorem routes_answer (db : list Review) (g : rng) :
  (db <> [] ->
   exists product simple g',
     get_recommendations metric lower polarity_scores apriori
       association_rules round3 rng randbelow db g =
       Returned ({| flashed := None;
                    body := render_recommendations product simple |}, g') /\
     product_recommendations lower polarity_scores apriori
       association_rules round3 (map content db) = Some product /\
     generate_simple_recommendations lower rng randbelow
       (map Some (map content db)) g = (simple, g') /\
     length simple = length db) /\
  (db = [] ->
   get_recommendations metric lower polarity_scores apriori
     association_rules round3 rng randbelow db g = Raised RuntimeError) /\
  (@charts metric db = Raised RuntimeError <-> db = []) /\
  (db <> [] ->
   @charts metric db =
     Returned {| flashed := None;
                 body := render_charts "sentiment_bar.png"
                           (Some "sentiment_pie.png") |}) /\
  (forall (c : ascii) (key message category : string)
          (resp : response metric),
     flash_then (Some (String c key)) message category resp =
       Returned {| flashed := Some (message, category); body := resp |}) /\
  (forall (message category : string) (resp : response metric),
     flash_then None message category resp = Raised RuntimeError /\
     flash_then (Some "") message category resp = Raised RuntimeError).
Proof.
  split; [|split; [|split; [|split; [|split]]]].
  - intros Hne. unfold get_recommendations.
    destruct db as [|row db]; [congruence|].
    cbn [map]. cbv beta iota zeta.
    set (texts := content row :: map content db).
    change (Some (content row) :: map Some (map content db))
      with (map Some texts).
    assert (Htexts : length texts = length (row :: db))
      by (simpl; rewrite length_map; reflexivity).
    destruct (generate_total metric apriori association_rules round3
                (extract_products_from_reviews lower (map Some texts))
                (analyze_sentiments polarity_scores texts)) as [product Hp];
      [discriminate|].
    unfold product_recommendations at 1. rewrite Hp.
    assert (Hlen := simple_loop_length lower rng randbelow
                      (map Some texts) g).
    unfold generate_simple_recommendations in *.
    destruct (simple_loop lower rng randbelow (map Some texts) [] g)
      as [simple g'].
    exists product, simple, g'. split; [reflexivity|].
    split; [exact Hp|]. split; [reflexivity|].
    simpl in Hlen. rewrite Hlen, length_map. exact Htexts.
  - intros ->. reflexivity.
  - unfold charts, generate_charts. destruct db; simpl;
      split; intros H; [reflexivity | reflexivity | discriminate H
                        | discriminate H].
  - intros Hne. destruct db; [congruence | reflexivity].
  - reflexivity.
  - intros message category resp. split; reflexivity.
Qed.

(** X22 — For every row stored by the routes, the chart and the composer
    agree on what is positive: the chart labels the stored score Positive
    exactly when the sentiment recomputed from the stored text makes the
    flag [positive_review] true. *)
Theorem chart_label_of_stored_row (requests : list request) (row : Review) :
  row ∈ run' requests ->
  (label (sentiment_score row) = "Positive" <->
   (0.05 <? compound (polarity_scores (content row)))%float = true) /\
  label (sentiment_score row) =
    label (Some (compound (polarity_scores (content row)))).
Proof.
  intros Hrow. pose proof (stored_rows_scored requests) as H.
  rewrite Forall_forall in H. destruct (H row Hrow) as [_ ->].
  split; [|reflexivity]. simpl.
  destruct (0.05 <? compound (polarity_scores (content row)))%float;
    [tauto|].
  destruct (compound (polarity_scores (content row)) <? -0.05)%float;
    split; congruence.
Qed.
End RouteFacts.

Lemma chart_label_of_stored_row_witness :
  {| id := 1; content := "love the pizza";
     sentiment_score := Some 0.6%float; created_at := 0 |}
  ∈ run Q (fun text => text) (fun _ => scored 0.6)
      (fun db => (Z.of_nat (length db) + 1)%Z) (fun _ => 0%Z)
      [GiveReview true (Some "love the pizza")] /\
  label (Some 0.6%float) =
  label (Some (compound ((fun _ : string => scored 0.6) "love the pizza"))).
Proof.
  assert (H : {| id := 1; content := "love the pizza";
                 sentiment_score := Some 0.6%float; created_at := 0 |}
              ∈ run Q (fun text => text) (fun _ => scored 0.6)
                  (fun db => (Z.of_nat (length db) + 1)%Z) (fun _ => 0%Z)
                  [GiveReview true (Some "love the pizza")]) by left.
  split; [exact H|].
  exact (proj2 (chart_label_of_stored_row Q (fun text => text)
                  (fun _ => scored 0.6)
                  (fun db => (Z.of_nat (length db) + 1)%Z) (fun _ => 0%Z)
                  [GiveReview true (Some "love the pizza")] _ H)).
Defined.
